(** * smartcollector: SmartThings sensor data to a node-exporter textfile

    A shallow embedding of [smartcollector.go] and the properties of its two
    core pieces: the metric mapper ([getTimeSeries] with [valueClear],
    [valueOneOf], [valueFloat]) and the output writer ([saveTimeSeries] and
    the two output branches of [main]).

    Conventions.
    - A Go [string] is a byte sequence: Rocq's [string].
    - A Go [float64] is a primitive binary64 float.
    - A Go [error] is [option string]: [None] is [nil], [Some m] an error
      whose [Error()] text is [m].
    - A Go result pair [(x, err)] is a Rocq pair, as the source returns it.
    - The Go map [devinfo.Attributes] is the list of its entries in the order
      in which [range] visits them. That order is chosen by the runtime, so
      every statement about the mapper is made for all lists. *)

From Stdlib Require Import Ascii PrimFloat.
From stdpp Require Import base list strings gmap pretty.

(** ** Go values and formatting *)

Abbreviation error := (option string).

(** The dynamic value held by an [interface{}]. The mapper tells apart [nil],
    [string] and [float64]; a value of any other dynamic type is only ever
    printed with [%v], so it is carried with that rendering. *)
Inductive value :=
  | VNil
  | VString (s : string)
  | VFloat (f : float)
  | VBool (b : bool)
  | VOther (rendering : string).

(** The part of Go's [strconv] and [unicode/utf8] packages behind the [%q]
    verb, as in current Go releases. *)
Module strconv.

(** The double-quote character. *)
Definition dquote : ascii := "034"%char.

Definition lowerhex (n : N) : ascii :=
  ascii_of_N (if (n <? 10)%N then 48 + n else 87 + n)%N.

(** [n] as [digits] lower-case hexadecimal digits. *)
Fixpoint hex (digits : nat) (n : N) : string :=
  match digits with
  | O => ""
  | S d => hex d (n / 16)%N +:+ String (lowerhex (n mod 16)%N) ""
  end.

Definition RuneError : N := 65533.

Definition cont (b : N) : bool := (128 <=? b)%N && (b <=? 191)%N.

(** [utf8.DecodeRuneInString]: the first rune of a byte sequence and its
    width; an invalid or short encoding is [(RuneError, 1)]. *)
Definition DecodeRune (bs : list N) : N * nat :=
  match bs with
  | [] => (RuneError, 0)
  | b0 :: rest =>
    if (b0 <? 128)%N then (b0, 1)
    else if (194 <=? b0)%N && (b0 <=? 223)%N then
      match rest with
      | b1 :: _ =>
        if cont b1 then (((b0 mod 32) * 64 + b1 mod 64)%N, 2)
        else (RuneError, 1)
      | _ => (RuneError, 1)
      end
    else if (224 <=? b0)%N && (b0 <=? 239)%N then
      match rest with
      | b1 :: b2 :: _ =>
        let lo := if (b0 =? 224)%N then 160%N else 128%N in
        let hi := if (b0 =? 237)%N then 159%N else 191%N in
        if (lo <=? b1)%N && (b1 <=? hi)%N && cont b2
        then (((b0 mod 16) * 4096 + (b1 mod 64) * 64 + b2 mod 64)%N, 3)
        else (RuneError, 1)
      | _ => (RuneError, 1)
      end
    else if (240 <=? b0)%N && (b0 <=? 244)%N then
      match rest with
      | b1 :: b2 :: b3 :: _ =>
        let lo := if (b0 =? 240)%N then 144%N else 128%N in
        let hi := if (b0 =? 244)%N then 143%N else 191%N in
        if (lo <=? b1)%N && (b1 <=? hi)%N && cont b2 && cont b3
        then (((b0 mod 8) * 262144 + (b1 mod 64) * 4096
               + (b2 mod 64) * 64 + b3 mod 64)%N, 4)
        else (RuneError, 1)
      | _ => (RuneError, 1)
      end
    else (RuneError, 1)
  end.

Fixpoint bytes (s : string) : list N :=
  match s with
  | EmptyString => []
  | String a s' => N_of_ascii a :: bytes s'
  end.

Fixpoint take_string (n : nat) (s : string) : string :=
  match n, s with
  | S n', String a s' => String a (take_string n' s')
  | _, _ => ""
  end.

Section Quote.
(** [unicode.IsPrint] above Latin-1 is a table of the Go distribution. *)
Variable IsPrintTable : N -> bool.

Definition IsPrint (r : N) : bool :=
  if (r <=? 255)%N then
    if (32 <=? r)%N && (r <=? 126)%N then true
    else if (161 <=? r)%N then negb (r =? 173)%N
    else false
  else IsPrintTable r.

(** [appendEscapedRune] for the double quote; [raw] is the UTF-8
    encoding of [r]. *)
Definition escapedRune (r : N) (raw : string) : string :=
  if (r =? 34)%N || (r =? 92)%N then String "\"%char raw
  else if IsPrint r then raw
  else if (r =? 7)%N then "\a"
  else if (r =? 8)%N then "\b"
  else if (r =? 12)%N then "\f"
  else if (r =? 10)%N then "\n"
  else if (r =? 13)%N then "\r"
  else if (r =? 9)%N then "\t"
  else if (r =? 11)%N then "\v"
  else if (r <? 32)%N || (r =? 127)%N then "\x" +:+ hex 2 r
  else if (r <? 65536)%N then "\u" +:+ hex 4 r
  else "\U" +:+ hex 8 r.

(** The loop of [appendQuotedWith]; [skip] counts the bytes of the
    current rune that are still to be stepped over. *)
Fixpoint quoteLoop (skip : nat) (s : string) : string :=
  match s with
  | EmptyString => ""
  | String a s' =>
    match skip with
    | S k => quoteLoop k s'
    | O =>
      let '(r, width) := DecodeRune (bytes s) in
      if Nat.eqb width 1 && (r =? RuneError)%N
      then "\x" +:+ hex 2 (N_of_ascii a) +:+ quoteLoop 0 s'
      else escapedRune r (take_string width s) +:+ quoteLoop (width - 1) s'
    end
  end.

(** [strconv.Quote], which the [%q] verb applies to a string. *)
Definition Quote (s : string) : string :=
  String dquote (quoteLoop 0 s) +:+ String dquote "".
End Quote.

End strconv.

Module gosmart.

(** Modelled from the spec: the type [gosmart.DeviceInfo] is declared by the
    gosmart client library. A device has an identifier (string), a display
    name (string) and an attribute mapping from attribute name to a value
    that is absent/null, a string or a floating-point number. *)
Record DeviceInfo := {
  ID : string;
  DisplayName : string;
  Attributes : list (string * value)
}.

End gosmart.
Import gosmart.

(** ** The operating system *)

Definition newline : string := String "010"%char "".

(** The calls of Go's [os] package that the program makes, over a file
    system that maps a path to the contents of the file there. *)
Module os.

(** What the operating system decides: the process identifiers and, for
    every call, whether it fails. A fault may depend on the file system at
    the time of the call. A failing write stores only the first [n] bytes
    of its data. *)
Record Kernel := {
  Getpid : Z;
  Getppid : Z;
  createFault : gmap string string -> string -> error;
  writeFault : gmap string string -> string -> string -> option (nat * string);
  closeFault : gmap string string -> string -> error;
  renameFault : gmap string string -> string -> string -> error
}.

(** An open file: the path it was opened at and whether it was closed. *)
Record File := { name : string; closed : bool }.

Fixpoint prefix (n : nat) (s : string) : string :=
  match n, s with
  | S n', String a s' => String a (prefix n' s')
  | _, _ => ""
  end.

Section Calls.
Variable k : Kernel.

(** [os.Create] truncates the file or creates it empty. *)
Definition Create (fs : gmap string string) (path : string)
  : (File + string) * gmap string string :=
  match createFault k fs path with
  | Some msg => (inr msg, fs)
  | None => (inl {| name := path; closed := false |}, <[path := ""]> fs)
  end.

(** [File.Write] appends at the current offset, the end of what was
    written since [Create]. *)
Definition Write (fs : gmap string string) (f : File) (b : string)
  : (nat * error) * gmap string string :=
  if closed f then
    ((0%nat, Some ("write " +:+ name f +:+ ": file already closed")), fs)
  else
    match writeFault k fs (name f) b with
    | Some (n, msg) =>
      ((Nat.min n (String.length b), Some msg),
       alter (λ c, c +:+ prefix n b) (name f) fs)
    | None =>
      ((String.length b, None), alter (λ c, c +:+ b) (name f) fs)
    end.

Definition Close (fs : gmap string string) (f : File) : error * File :=
  if closed f then
    (Some ("close " +:+ name f +:+ ": file already closed"), f)
  else (closeFault k fs (name f), {| name := name f; closed := true |}).

(** [os.Rename] replaces the file at [newpath], if there is one, in one
    step. *)
Definition Rename (fs : gmap string string) (oldpath newpath : string)
  : error * gmap string string :=
  match renameFault k fs oldpath newpath with
  | Some msg => (Some msg, fs)
  | None =>
    match fs !! oldpath with
    | None =>
      (Some ("rename " +:+ oldpath +:+ " " +:+ newpath
             +:+ ": no such file or directory"), fs)
    | Some c => (None, <[newpath := c]> (delete oldpath fs))
    end
  end.
End Calls.

End os.

(** ** The program [smartcollector] *)

Module smartcollector.

(** ** The metric mapper *)

Section Mapper.

(** [%v] of a [float64], that is [strconv.FormatFloat(f, 'g', -1, 64)]. *)
Variable FormatFloat : float -> string.
(** [unicode.IsPrint] above Latin-1. *)
Variable IsPrintTable : N -> bool.

(** [%v] of an [interface{}] value. *)
Definition fmt_v (v : value) : string :=
  match v with
  | VNil => "<nil>"
  | VString s => s
  | VFloat f => FormatFloat f
  | VBool b => if b then "true" else "false"
  | VOther rendering => rendering
  end.

(** [%q] of a string. *)
Definition fmt_q (s : string) : string := strconv.Quote IsPrintTable s.

(** [s] between double quotes, as the literal [\"%s\"] of a format. *)
Definition quoted (s : string) : string :=
  String strconv.dquote s +:+ String strconv.dquote "".

(** The source documents it so: valueClear expects a string and returns 0
    for "clear", 1 for anything else. Its body tests [val != "clear"] and
    returns 0.0 in that branch. *)
Definition valueClear (v : value) : float * error :=
  match v with
  | VString val =>
    if decide (val ≠ "clear") then (0%float, None)
    else (1%float, None)
  | _ => (0%float, Some ("invalid non-string argument " +:+ fmt_v v))
  end.

(** valueOneOf returns 0.0 if the value matches the first item in the array,
    1.0 if it matches the second, and an error if nothing matches.
    [options[0]] and [options[1]] are slice reads: out of range they raise a
    run-time panic, which is the result [None]. *)
Definition valueOneOf (v : value) (options : list string)
  : option (float * error) :=
  match v with
  | VString val =>
    o0 ← options !! 0%nat;
    if decide (val = o0) then Some (0%float, None) else
    o1 ← options !! 1%nat;
    if decide (val = o1) then Some (1%float, None) else
    Some (0%float,
          Some ("invalid option " +:+ fmt_q val +:+ ". Expected "
                +:+ fmt_q o0 +:+ " or " +:+ fmt_q o1))
  | _ => Some (0%float, Some ("invalid non-string argument " +:+ fmt_v v))
  end.

(** valueFloat returns the float64 value of the value passed or error if
    the value cannot be converted. *)
Definition valueFloat (v : value) : float * error :=
  match v with
  | VFloat val => (val, None)
  | _ => (0%float, Some ("invalid non floating-point argument " +:+ fmt_v v))
  end.

Definition valOpenClosed : list string := ["open"; "closed"].
Definition valInactiveActive : list string := ["inactive"; "active"].
Definition valAbsentPresent : list string := ["absent"; "present"].
Definition valOffOn : list string := ["off"; "on"].

(** The [switch k] of [getTimeSeries]: [None] is the [default] branch
    ([continue]); [Some call] is the call made by the branch of [k]. *)
Definition switch (k : string) (val : value)
  : option (option (float * error)) :=
  if decide (k = "alarmState") then Some (Some (valueClear val))
  else if decide (k = "battery") then Some (Some (valueFloat val))
  else if decide (k = "carbonMonoxide") then Some (Some (valueClear val))
  else if decide (k = "contact") then Some (valueOneOf val valOpenClosed)
  else if decide (k = "energy") then Some (Some (valueFloat val))
  else if decide (k = "motion") then Some (valueOneOf val valInactiveActive)
  else if decide (k = "power") then Some (Some (valueFloat val))
  else if decide (k = "presence") then Some (valueOneOf val valAbsentPresent)
  else if decide (k = "smoke") then Some (Some (valueClear val))
  else if decide (k = "switch") then Some (valueOneOf val valOffOn)
  else if decide (k = "temperature") then Some (Some (valueFloat val))
  else None.

(** The line appended for attribute [k] with metric value [value]. *)
Definition line (devinfo : DeviceInfo) (k : string) (value : float)
  : string :=
  "smartthings_sensors{id=" +:+ quoted (ID devinfo)
  +:+ " name=" +:+ quoted (DisplayName devinfo)
  +:+ " attr=" +:+ quoted k +:+ "} = " +:+ FormatFloat value.

(** Some sensors report [nil] instead of a blank string. *)
Definition nilToEmpty (val : value) : value :=
  match val with
  | VNil => VString ""
  | _ => val
  end.

(** The [range] loop of [getTimeSeries] over the entries still to visit,
    with the lines collected so far. The result [None] is a panic. On an
    error the function returns the [nil] slice, which is [[]]. *)
Fixpoint rangeAttributes (devinfo : DeviceInfo)
    (attrs : list (string * value)) (ret : list string)
  : option (list string * error) :=
  match attrs with
  | [] => Some (ret, None)
  | (k, val) :: rest =>
    let val := nilToEmpty val in
    match switch k val with
    | None => rangeAttributes devinfo rest ret
    | Some call =>
      '(value, err) ← call;
      match err with
      | Some _ => Some ([], err)
      | None => rangeAttributes devinfo rest (ret ++ [line devinfo k value])
      end
    end
  end.

Definition getTimeSeries (devinfo : DeviceInfo)
  : option (list string * error) :=
  rangeAttributes devinfo (Attributes devinfo) [].

End Mapper.

(** ** The output writer *)

Section Writer.
Variable k : os.Kernel.

(** Silly temp name, made of the target name, the process identifier and
    the parent's. *)
Definition tempname (fname : string) : string :=
  fname +:+ "-" +:+ pretty (os.Getpid k) +:+ "-" +:+ pretty (os.Getppid k).

(** The [for] loop of [saveTimeSeries]: the result of [w.Write] is
    dropped. *)
Definition writeLines (w : os.File) (ts : list string)
    (fs : gmap string string) : gmap string string :=
  foldl (λ fs v, (os.Write k fs w (v +:+ newline)).2) fs ts.

Definition saveTimeSeries (fname : string) (ts : list string)
    (fs : gmap string string) : error * gmap string string :=
  let tempfile := tempname fname in
  match os.Create k fs tempfile with
  | (inr msg, fs) => (Some msg, fs)
  | (inl w, fs) =>
    let fs := writeLines w ts fs in
    (* [w.Close()]: its result is dropped. *)
    let w := (os.Close k fs w).2 in
    let '(err, fs) := os.Rename k fs tempfile fname in
    (* The deferred [w.Close()] runs on return; its result is dropped. *)
    let w := (os.Close k fs w).2 in
    match err with
    | Some _ => (err, fs)
    | None => (None, fs)
    end
  end.

End Writer.

(** ** The program *)

(** Prefix for the token file under the home directory. *)
Definition tokenFilePrefix : string := ".smartcollector".

(** Where the node exporter looks for textfile collector files. *)
Definition textFileCollectorDir : string := "/run/textfile_collector".

(** Time series textfile collector filename. *)
Definition textFileCollectorName : string := "smartcollector.prom".

(** The command line, after [flag.Parse]. *)
Record Flags := {
  flagClient : string;
  flagSecret : string;
  flagTextFileCollectorDir : string;
  flagDryRun : bool
}.

(** What a run can change or emit: the files, the two output streams, and the
    device identifiers whose details were requested from the cloud, in
    order. *)
Record World := {
  files : gmap string string;
  stdout : string;
  stderr : string;
  requests : list string
}.

(** The calls into the gosmart library and the cloud behind it. [GetToken]
    reads and stores the cached token and may talk to the operator, so it
    acts on the world. A call yields its value ([inl]) or the text of its
    error ([inr]). [GetDevices] yields the identifiers of the devices. *)
Record Cloud := {
  GetToken : string -> string -> string -> World -> error * World;
  GetEndPointsURI : string + string;
  GetDevices : string -> list string + string;
  GetDeviceInfo : string -> string -> DeviceInfo + string
}.

(** How the process ends: [os.Exit] with a status, or a run-time panic. *)
Inductive exit := Exit (code : Z) | Panicked.

Fixpoint endsWithNewline (s : string) : bool :=
  match s with
  | EmptyString => false
  | String c EmptyString => bool_decide (c = "010"%char)
  | String _ s' => endsWithNewline s'
  end.

(** [log.Fatalf] with the flags set to 0: the message, ended by a newline if
    it has none, goes to standard error and the process exits with 1. *)
Definition Fatalf (msg : string) (w : World) : World * exit :=
  let text := if endsWithNewline msg then msg else msg +:+ newline in
  ({| files := files w; stdout := stdout w; stderr := stderr w +:+ text;
      requests := requests w |}, Exit 1).
Arguments Fatalf : simpl never.

(** [fmt.Println] of one string. *)
Definition Println (v : string) (w : World) : World :=
  {| files := files w; stdout := stdout w +:+ v +:+ newline;
     stderr := stderr w; requests := requests w |}.

Definition request (dev : string) (w : World) : World :=
  {| files := files w; stdout := stdout w; stderr := stderr w;
     requests := requests w ++ [dev] |}.

Definition withFiles (fs : gmap string string) (w : World) : World :=
  {| files := fs; stdout := stdout w; stderr := stderr w;
     requests := requests w |}.

Section Main.
Variable FormatFloat : float -> string.
Variable IsPrintTable : N -> bool.
(** [filepath.Join] of a directory and a file name. *)
Variable Join : string -> string -> string.
Variable cloud : Cloud.
Variable k : os.Kernel.

(** Iterate over all devices and collect timeseries info: the [for] loop
    over [devs], with the lines collected so far in [ts]. *)
Fixpoint collect (endpoint : string) (devs : list string)
    (ts : list string) (w : World) : World * (list string + exit) :=
  match devs with
  | [] => (w, inl ts)
  | dev :: rest =>
    let w := request dev w in
    match GetDeviceInfo cloud endpoint dev with
    | inr err =>
      let '(w, e) := Fatalf ("Error reading device info: " +:+ err
                             +:+ newline) w in (w, inr e)
    | inl devinfo =>
      match getTimeSeries FormatFloat IsPrintTable devinfo with
      | None => (w, inr Panicked)
      | Some (t, Some err) =>
        let '(w, e) := Fatalf ("Error processing sensor data: " +:+ err
                               +:+ newline) w in (w, inr e)
      | Some (t, None) => collect endpoint rest (ts ++ t) w
      end
    end
  end.

(** [main] up to the end of the device loop: the collected lines, or the
    way the process ended. *)
Definition gather (flags : Flags) (w : World)
  : World * (list string + exit) :=
  if decide (flagClient flags = "") then
    let '(w, e) := Fatalf "Must specify Client ID (--client)" w in
    (w, inr e)
  else
    let tfile :=
      tokenFilePrefix +:+ "_" +:+ flagClient flags +:+ ".json" in
    let '(err, w) :=
      GetToken cloud tfile (flagClient flags) (flagSecret flags) w in
    match err with
    | Some err =>
      let '(w, e) := Fatalf ("Error fetching token: " +:+ err) w in
      (w, inr e)
    | None =>
      match GetEndPointsURI cloud with
      | inr err =>
        let '(w, e) := Fatalf ("Error reading endpoints URI: " +:+ err
                               +:+ newline) w in (w, inr e)
      | inl endpoint =>
        match GetDevices cloud endpoint with
        | inr err =>
          let '(w, e) := Fatalf ("Error reading list of devices: " +:+ err
                                 +:+ newline) w in (w, inr e)
        | inl devs => collect endpoint devs [] w
        end
      end
    end.

(** Save timeseries (or just print if dry-run active). *)
Definition emit (flags : Flags) (ts : list string) (w : World)
  : World * exit :=
  if flagDryRun flags then
    (foldl (λ w v, Println v w) w ts, Exit 0)
  else
    let f := Join (flagTextFileCollectorDir flags) textFileCollectorName in
    match saveTimeSeries k f ts (files w) with
    | (Some err, fs) =>
      Fatalf ("Error saving timeseries: " +:+ err +:+ newline)
             (withFiles fs w)
    | (None, fs) => (withFiles fs w, Exit 0)
    end.

Definition main (flags : Flags) (w : World) : World * exit :=
  match gather flags w with
  | (w, inr e) => (w, e)
  | (w, inl ts) => emit flags ts w
  end.

End Main.

End smartcollector.
Import smartcollector.

(** ** Vocabulary of the properties *)

Module props.

(** The eleven attribute names the mapper knows. *)
Definition recognized : list string :=
  ["alarmState"; "battery"; "carbonMonoxide"; "contact"; "energy"; "motion";
   "power"; "presence"; "smoke"; "switch"; "temperature"].

(** The two-valued attributes, each with its first and second literal. *)
Definition enums : list (string * (string * string)) :=
  [("contact", ("open", "closed")); ("motion", ("inactive", "active"));
   ("presence", ("absent", "present")); ("switch", ("off", "on"))].

(** The pass-through attributes. *)
Definition numerics : list string :=
  ["battery"; "energy"; "power"; "temperature"].

(** A string of printable ASCII characters other than the double quote and
    the backslash: quoting it changes nothing but the quotes around it. *)
Fixpoint plain (s : string) : bool :=
  match s with
  | EmptyString => true
  | String a s' =>
    let b := N_of_ascii a in
    (32 <=? b)%N && (b <=? 126)%N && negb (b =? 34)%N && negb (b =? 92)%N
    && plain s'
  end.

(** The line an attribute contributes when its value is accepted. *)
Definition accepted (FormatFloat : float -> string) (IsPrintTable : N -> bool)
    (devinfo : DeviceInfo) (kv : string * value) : option string :=
  match switch FormatFloat IsPrintTable kv.1 (nilToEmpty kv.2) with
  | Some (Some (x, None)) => Some (line FormatFloat devinfo kv.1 x)
  | _ => None
  end.

(** An attribute that does not stop the mapper: skipped or accepted. *)
Definition passes (FormatFloat : float -> string) (IsPrintTable : N -> bool)
    (kv : string * value) : Prop :=
  switch FormatFloat IsPrintTable kv.1 (nilToEmpty kv.2) = None
  ∨ ∃ x, switch FormatFloat IsPrintTable kv.1 (nilToEmpty kv.2)
         = Some (Some (x, None)).

(** The text of a list of lines: each line followed by a newline, in
    order. *)
Definition unlines (ts : list string) : string :=
  foldr (λ v text, v +:+ newline +:+ text) "" ts.

(** The lines a device contributes when its details are fetched and mapped
    without error. *)
Definition deviceLines (FormatFloat : float -> string)
    (IsPrintTable : N -> bool) (cloud : Cloud) (endpoint dev : string)
  : option (list string) :=
  match GetDeviceInfo cloud endpoint dev with
  | inl devinfo =>
    match getTimeSeries FormatFloat IsPrintTable devinfo with
    | Some (t, None) => Some t
    | _ => None
    end
  | inr _ => None
  end.

(** The world after the details of [devs] were requested. *)
Definition requested (devs : list string) (w : World) : World :=
  {| files := files w; stdout := stdout w; stderr := stderr w;
     requests := requests w ++ devs |}.

(** The clear-sentinel attributes. *)
Definition clearKeys : list string := ["alarmState"; "carbonMonoxide"; "smoke"].

(** The character [c] does not occur in [s]. *)
Fixpoint lacks (c : ascii) (s : string) : Prop :=
  match s with
  | EmptyString => True
  | String a s' => a ≠ c ∧ lacks c s'
  end.

(** The attributes with every null value replaced by the empty string. *)
Definition nilsToEmpty (attrs : list (string * value))
  : list (string * value) :=
  (λ kv : string * value, (kv.1, nilToEmpty kv.2)) <$> attrs.

End props.
Import props.

(** ** Sample environments *)

(** A kernel on which no call fails. *)
Definition quiet : os.Kernel := {|
  os.Getpid := 4711;
  os.Getppid := 1;
  os.createFault := λ _ _, None;
  os.writeFault := λ _ _ _, None;
  os.closeFault := λ _ _, None;
  os.renameFault := λ _ _ _, None
|}.

(** A kernel whose disk holds [capacity] bytes per file: a write that would
    exceed them stores what fits and fails. *)
Definition diskFull (capacity : nat) : os.Kernel := {|
  os.Getpid := 4711;
  os.Getppid := 1;
  os.createFault := λ _ _, None;
  os.writeFault := λ fs path b,
    let used := String.length (default "" (fs !! path)) in
    if decide (capacity < used + String.length b)%nat
    then Some ((capacity - used)%nat,
               "write " +:+ path +:+ ": no space left on device")
    else None;
  os.closeFault := λ _ _, None;
  os.renameFault := λ _ _ _, None
|}.

(** A kernel on which closing a file reports an input/output error. *)
Definition closeFails : os.Kernel := {|
  os.Getpid := 4711;
  os.Getppid := 1;
  os.createFault := λ _ _, None;
  os.writeFault := λ _ _ _, None;
  os.closeFault := λ _ path, Some ("close " +:+ path +:+ ": input/output error");
  os.renameFault := λ _ _ _, None
|}.

(** A float printer that agrees with Go on the three values of the
    examples. *)
Definition sampleFormatFloat (f : float) : string :=
  if PrimFloat.eqb f 0 then "0"
  else if PrimFloat.eqb f 1 then "1"
  else if PrimFloat.eqb f 87.5 then "87.5"
  else "NaN".

(** Joining a directory and a file name that need no cleaning. *)
Definition sampleJoin (dir file : string) : string := dir +:+ "/" +:+ file.

Definition door : DeviceInfo := {|
  ID := "d1";
  DisplayName := "Door";
  Attributes := [("contact", VString "open"); ("battery", VFloat 87.5);
                 ("foo", VString "bar")]
|}.

Definition plug : DeviceInfo := {|
  ID := "d2";
  DisplayName := "Plug";
  Attributes := [("power", VFloat 1); ("switch", VString "unknown")]
|}.

(** A cloud with the devices d1 (door), d2 (plug) and d3 (door again). *)
Definition sampleCloud : Cloud := {|
  GetToken := λ _ _ _ w, (None, w);
  GetEndPointsURI := inl "https://graph.api.smartthings.com/api/smartapps/x";
  GetDevices := λ _, inl ["d1"; "d2"; "d3"];
  GetDeviceInfo := λ _ dev, if decide (dev = "d2") then inl plug else inl door
|}.

(** A cloud with the single device d1. *)
Definition doorCloud : Cloud := {|
  GetToken := λ _ _ _ w, (None, w);
  GetEndPointsURI := inl "https://graph.api.smartthings.com/api/smartapps/x";
  GetDevices := λ _, inl ["d1"];
  GetDeviceInfo := λ _ _, inl door
|}.

Definition sampleFlags (dryRun : bool) : Flags := {|
  flagClient := "client";
  flagSecret := "";
  flagTextFileCollectorDir := textFileCollectorDir;
  flagDryRun := dryRun
|}.

Definition emptyWorld : World :=
  {| files := ∅; stdout := ""; stderr := ""; requests := [] |}.

(** A world in which an earlier run left an output file. *)
Definition staleWorld : World :=
  {| files := {[ sampleJoin textFileCollectorDir textFileCollectorName
                 := "smartthings_sensors 1" +:+ newline ]};
     stdout := ""; stderr := ""; requests := [] |}.

(** Every rune above Latin-1 taken as printable. *)
Definition sampleIsPrint (r : N) : bool := true.

(** The two lines of the device [door]. *)
Definition doorLines : list string :=
  [line sampleFormatFloat door "contact" 0%float;
   line sampleFormatFloat door "battery" 87.5%float].

(** A kernel on which renaming fails. *)
Definition renameFails : os.Kernel := {|
  os.Getpid := 4711;
  os.Getppid := 1;
  os.createFault := λ _ _, None;
  os.writeFault := λ _ _ _, None;
  os.closeFault := λ _ _, None;
  os.renameFault := λ _ oldpath newpath,
    Some ("rename " +:+ oldpath +:+ " " +:+ newpath
          +:+ ": permission denied")
|}.

(** The output file of the samples, and a file of another collector next to
    it. *)
Definition target : string :=
  sampleJoin textFileCollectorDir textFileCollectorName.

Definition crowded : gmap string string :=
  {[ target := "smartthings_sensors 1" +:+ newline;
     "/run/textfile_collector/node.prom" := "up 1" +:+ newline ]}.

(** The device [door] with its attributes visited in another order. *)
Definition doorSwapped : DeviceInfo := {|
  ID := "d1";
  DisplayName := "Door";
  Attributes := [("battery", VFloat 87.5); ("contact", VString "open");
                 ("foo", VString "bar")]
|}.

(** A cloud that fails to return the details of the device d2. *)
Definition flakyCloud : Cloud := {|
  GetToken := λ _ _ _ w, (None, w);
  GetEndPointsURI := inl "https://graph.api.smartthings.com/api/smartapps/x";
  GetDevices := λ _, inl ["d1"; "d2"; "d3"];
  GetDeviceInfo := λ _ dev,
    if decide (dev = "d2") then inr "request timed out" else inl door
|}.

(** A cloud that refuses the token. *)
Definition lockedCloud : Cloud := {|
  GetToken := λ _ _ _ w, (Some "invalid client", w);
  GetEndPointsURI := inl "https://graph.api.smartthings.com/api/smartapps/x";
  GetDevices := λ _, inl ["d1"];
  GetDeviceInfo := λ _ _, inl door
|}.

(** A command line without client identifier. *)
Definition noClientFlags : Flags := {|
  flagClient := "";
  flagSecret := "";
  flagTextFileCollectorDir := textFileCollectorDir;
  flagDryRun := false
|}.

(** The error of the device [plug]. *)
Definition plugError : string :=
  "invalid option " +:+ quoted "unknown" +:+ ". Expected " +:+ quoted "off"
  +:+ " or " +:+ quoted "on".

(** A cloud whose only device reports nothing the mapper knows. *)
Definition bareCloud : Cloud := {|
  GetToken := λ _ _ _ w, (None, w);
  GetEndPointsURI := inl "https://graph.api.smartthings.com/api/smartapps/x";
  GetDevices := λ _, inl ["d9"];
  GetDeviceInfo := λ _ _,
    inl {| ID := "d9"; DisplayName := "Hub";
           Attributes := [("foo", VString "bar")] |}
|}.

(** ** Properties of the mapper *)

Lemma quoteLoop_plain (IsPrintTable : N -> bool) (s : string) :
  plain s = true → strconv.quoteLoop IsPrintTable 0 s = s.
Proof.
  induction s as [|a s IH]; [done|].
  cbn [plain]. intros H.
  apply andb_prop in H as [H Hs]. apply andb_prop in H as [H H92].
  apply andb_prop in H as [H H34]. apply andb_prop in H as [H32 H126].
  apply negb_true_iff in H34, H92.
  pose proof (proj1 (N.leb_le _ _) H32) as L32.
  pose proof (proj1 (N.leb_le _ _) H126) as L126.
  cbn [strconv.quoteLoop strconv.bytes strconv.DecodeRune].
  assert (Hlt : (N_of_ascii a <? 128)%N = true) by (apply N.ltb_lt; lia).
  assert (Herr : (N_of_ascii a =? strconv.RuneError)%N = false).
  { apply N.eqb_neq. unfold strconv.RuneError. lia. }
  assert (Hle : (N_of_ascii a <=? 255)%N = true) by (apply N.leb_le; lia).
  rewrite Hlt, Herr, andb_false_r.
  unfold strconv.escapedRune, strconv.IsPrint.
  rewrite H34, H92, Hle, H32, H126. simpl.
  change (String a (strconv.quoteLoop IsPrintTable 0 s) = String a s).
  by rewrite IH.
Qed.

(** [%q] of a plain string is the string between double quotes. *)
Lemma fmt_q_plain (IsPrintTable : N -> bool) (s : string) :
  plain s = true → fmt_q IsPrintTable s = quoted s.
Proof.
  intros H. unfold fmt_q, strconv.Quote, quoted.
  by rewrite quoteLoop_plain.
Qed.

Section MapperFacts.
Variable FormatFloat : float -> string.
Variable IsPrintTable : N -> bool.

Local Abbreviation switch := (switch FormatFloat IsPrintTable).
Local Abbreviation getTimeSeries := (getTimeSeries FormatFloat IsPrintTable).
Local Abbreviation rangeAttributes := (rangeAttributes FormatFloat IsPrintTable).
Local Abbreviation accepted := (accepted FormatFloat IsPrintTable).
Local Abbreviation passes := (passes FormatFloat IsPrintTable).
Local Abbreviation line := (line FormatFloat).

Lemma nilToEmpty_string s : nilToEmpty (VString s) = VString s.
Proof. reflexivity. Qed.

Lemma valueOneOf_pair v a b :
  ∃ r, valueOneOf FormatFloat IsPrintTable v [a; b] = Some r.
Proof.
  destruct v; simpl; eauto.
  repeat case_decide; eauto.
Qed.

(** With its two-element option lists the switch never panics. *)
Lemma switch_no_panic key val : switch key val ≠ Some None.
Proof.
  unfold smartcollector.switch, valOpenClosed, valInactiveActive,
    valAbsentPresent, valOffOn.
  repeat case_decide; try discriminate;
    match goal with
    | |- Some (valueOneOf _ _ ?v [?a; ?b]) ≠ _ =>
      destruct (valueOneOf_pair v a b) as [r ->]; discriminate
    end.
Qed.

Lemma switch_unrecognized key val :
  key ∉ recognized → switch key val = None.
Proof.
  unfold recognized. rewrite !not_elem_of_cons. intros H.
  unfold smartcollector.switch. repeat case_decide; try reflexivity; tauto.
Qed.

(** Attributes that pass only add their lines. *)
Lemma rangeAttributes_passes devinfo pre rest ret :
  Forall passes pre →
  rangeAttributes devinfo (pre ++ rest) ret
  = rangeAttributes devinfo rest (ret ++ omap (accepted devinfo) pre).
Proof.
  intros Hpre. revert ret.
  induction Hpre as [|[key val] pre Hkv _ IH]; intros ret.
  - simpl. by rewrite app_nil_r.
  - simpl. unfold props.accepted. simpl.
    destruct Hkv as [Hkv | [x Hkv]]; simpl in Hkv; rewrite Hkv; simpl.
    + apply IH.
    + rewrite IH. by rewrite <- app_assoc.
Qed.

Lemma rangeAttributes_fails devinfo key val rest ret x e :
  switch key (nilToEmpty val) = Some (Some (x, Some e)) →
  rangeAttributes devinfo ((key, val) :: rest) ret = Some ([], Some e).
Proof. intros H. simpl. rewrite H. reflexivity. Qed.

Lemma getTimeSeries_passes devinfo :
  Forall passes (Attributes devinfo) →
  getTimeSeries devinfo
  = Some (omap (accepted devinfo) (Attributes devinfo), None).
Proof.
  intros H. unfold smartcollector.getTimeSeries.
  rewrite <- (app_nil_r (Attributes devinfo)) at 1.
  rewrite rangeAttributes_passes by done. reflexivity.
Qed.

(** The loop always returns: it never panics. *)
Lemma rangeAttributes_total devinfo attrs ret :
  ∃ r, rangeAttributes devinfo attrs ret = Some r.
Proof.
  revert ret. induction attrs as [|[key val] attrs IH]; intros ret.
  - simpl. eauto.
  - simpl. destruct (switch key (nilToEmpty val)) as [[[x [e|]]|]|] eqn:E;
      simpl; eauto.
    by apply switch_no_panic in E.
Qed.

(** A run without error went through attributes that all pass. *)
Lemma rangeAttributes_ok devinfo attrs ret lines :
  rangeAttributes devinfo attrs ret = Some (lines, None) →
  Forall passes attrs.
Proof.
  revert ret. induction attrs as [|[key val] attrs IH]; intros ret H.
  - constructor.
  - simpl in H.
    destruct (switch key (nilToEmpty val)) as [[[x [e|]]|]|] eqn:E;
      simpl in H; try discriminate.
    + constructor; [right; eauto | eauto].
    + constructor; [left; done | eauto].
Qed.

(** The loop reads the identifier and the display name of the device only. *)
Lemma rangeAttributes_ext d d' attrs ret :
  ID d = ID d' → DisplayName d = DisplayName d' →
  rangeAttributes d attrs ret = rangeAttributes d' attrs ret.
Proof.
  intros Hid Hname. revert ret.
  induction attrs as [|[key val] attrs IH]; intros ret; simpl; [done|].
  destruct (switch key (nilToEmpty val)) as [[[x [e|]]|]|]; simpl; auto.
  unfold smartcollector.line. rewrite Hid, Hname. apply IH.
Qed.

End MapperFacts.

(** ** The claims about the mapper *)

Section MapperClaims.
Variable FormatFloat : float -> string.
Variable IsPrintTable : N -> bool.

Local Abbreviation switch := (switch FormatFloat IsPrintTable).
Local Abbreviation getTimeSeries := (getTimeSeries FormatFloat IsPrintTable).
Local Abbreviation rangeAttributes := (rangeAttributes FormatFloat IsPrintTable).
Local Abbreviation fmt_q := (fmt_q IsPrintTable).
Local Abbreviation fmt_v := (fmt_v FormatFloat).
Local Abbreviation line := (line FormatFloat).

Local Ltac enum_case H :=
  apply elem_of_cons in H as [H|H]; [injection H as -> -> ->|].

(** C1 (the code departs from the claim): for alarmState, carbonMonoxide and
    smoke the code maps the string "clear" to 1.0 and every other string,
    the empty string of a null value included, to 0.0: the two results are
    swapped with respect to the clear-sentinel rule. *)
Theorem valueClear_swapped (id name : string) :
  getTimeSeries {| ID := id; DisplayName := name;
                   Attributes := [("alarmState", VString "clear");
                                  ("carbonMonoxide", VString "detected");
                                  ("smoke", VNil)] |}
  = Some ([line {| ID := id; DisplayName := name; Attributes := [] |}
                "alarmState" 1%float;
           line {| ID := id; DisplayName := name; Attributes := [] |}
                "carbonMonoxide" 0%float;
           line {| ID := id; DisplayName := name; Attributes := [] |}
                "smoke" 0%float], None).
Proof. reflexivity. Qed.

(** The four enum branches of the switch, by evaluation. *)
Lemma switch_enum (key first second : string) :
  (key, (first, second)) ∈ enums →
  switch key (VString first) = Some (Some (0%float, None))
  ∧ switch key (VString second) = Some (Some (1%float, None))
  ∧ (∀ s, s ≠ first → s ≠ second →
       switch key (VString s)
       = Some (Some (0%float,
                     Some ("invalid option " +:+ fmt_q s +:+ ". Expected "
                           +:+ quoted first +:+ " or " +:+ quoted second))))
  ∧ (∀ v, (∀ s, v ≠ VString s) →
       ∃ msg, switch key (nilToEmpty v) = Some (Some (0%float, Some msg))).
Proof.
  intros H. unfold enums in H.
  repeat enum_case H; [| | | |by apply elem_of_nil in H];
    (split; [reflexivity|]; split; [reflexivity|]; split).
  all: try (intros s H1 H2; unfold smartcollector.switch; simpl;
            unfold valueOneOf; simpl; repeat case_decide; try done;
            reflexivity).
  all: intros v Hv; destruct v as [|s| | |]; simpl;
    try (by destruct (Hv s)); eauto.
Qed.

(** C3: for contact, motion, presence and switch the first literal maps to
    0.0 and the second to 1.0; any other string yields an error whose message
    carries the invalid value as [%q] prints it (for a plain string: the
    string itself between double quotes) and both valid literals; a value
    that is not a string (null included) yields an error; and a device whose
    only attribute is switch = "unknown" yields no line and the error that
    names "off" and "on". *)
Theorem valueOneOf_enums (key first second : string) :
  (key, (first, second)) ∈ enums →
  switch key (nilToEmpty (VString first)) = Some (Some (0%float, None))
  ∧ switch key (nilToEmpty (VString second)) = Some (Some (1%float, None))
  ∧ (∀ s, s ≠ first → s ≠ second →
       switch key (nilToEmpty (VString s))
       = Some (Some (0%float,
                     Some ("invalid option " +:+ fmt_q s +:+ ". Expected "
                           +:+ quoted first +:+ " or " +:+ quoted second)))
       ∧ (plain s = true → fmt_q s = quoted s))
  ∧ (∀ v, (∀ s, v ≠ VString s) →
       ∃ msg, switch key (nilToEmpty v) = Some (Some (0%float, Some msg)))
  ∧ (∀ id name,
       getTimeSeries {| ID := id; DisplayName := name;
                        Attributes := [("switch", VString "unknown")] |}
       = Some ([], Some ("invalid option " +:+ quoted "unknown"
                         +:+ ". Expected " +:+ quoted "off" +:+ " or "
                         +:+ quoted "on"))).
Proof.
  intros H. destruct (switch_enum key first second H) as (H0 & H1 & H2 & H3).
  split; [exact H0|]. split; [exact H1|]. split; [|split].
  - intros s Hf Hs. split; [by apply H2|apply fmt_q_plain].
  - exact H3.
  - intros id name. reflexivity.
Qed.

(** C4: for battery, energy, power and temperature a float64 value passes
    through unchanged and becomes the value of the line; a value of any other
    dynamic type yields an error, and the string "87.5" is such a value: it
    is not parsed. *)
Theorem valueFloat_numerics (key : string) :
  key ∈ numerics →
  (∀ f, switch key (nilToEmpty (VFloat f)) = Some (Some (f, None)))
  ∧ (∀ f id name,
       getTimeSeries {| ID := id; DisplayName := name;
                        Attributes := [(key, VFloat f)] |}
       = Some (["smartthings_sensors{id=" +:+ quoted id +:+ " name="
                +:+ quoted name +:+ " attr=" +:+ quoted key +:+ "} = "
                +:+ FormatFloat f], None))
  ∧ (∀ v, (∀ f, v ≠ VFloat f) →
       switch key (nilToEmpty v)
       = Some (Some (0%float,
                     Some ("invalid non floating-point argument "
                           +:+ fmt_v (nilToEmpty v)))))
  ∧ switch key (nilToEmpty (VString "87.5"))
    = Some (Some (0%float, Some "invalid non floating-point argument 87.5")).
Proof.
  intros H. unfold numerics in H.
  repeat (apply elem_of_cons in H as [->|H]); [| | | |by apply elem_of_nil in H].
  all: split; [reflexivity|]; split; [reflexivity|]; split; [|reflexivity].
  all: intros v Hv; destruct v as [| |f| |]; try reflexivity;
    by destruct (Hv f).
Qed.

(** C9: an attribute whose key is not one of the eleven recognized names is
    skipped whatever its value: the switch takes its default branch, and the
    mapper returns for the device exactly what it returns without that
    attribute, so the attribute adds no line and causes no error. *)
Theorem unrecognized_skipped (devinfo : DeviceInfo) (key : string)
    (val : value) (pre rest : list (string * value)) (ret : list string) :
  key ∉ recognized →
  switch key (nilToEmpty val) = None
  ∧ rangeAttributes devinfo (pre ++ (key, val) :: rest) ret
    = rangeAttributes devinfo (pre ++ rest) ret
  ∧ getTimeSeries {| ID := ID devinfo; DisplayName := DisplayName devinfo;
                     Attributes := pre ++ (key, val) :: rest |}
    = getTimeSeries {| ID := ID devinfo; DisplayName := DisplayName devinfo;
                       Attributes := pre ++ rest |}.
Proof.
  intros Hkey.
  pose proof (switch_unrecognized FormatFloat IsPrintTable key
                (nilToEmpty val) Hkey) as Hsw.
  assert (Hskip : ∀ d l r,
             rangeAttributes d (l ++ (key, val) :: rest) r
             = rangeAttributes d (l ++ rest) r).
  { intros d l. induction l as [|[key' val'] l IH]; intros r; simpl.
    - by rewrite Hsw.
    - destruct (switch key' (nilToEmpty val')) as [[[x [e|]]|]|];
        simpl; auto. }
  split; [done|]. split; [apply Hskip|].
  unfold smartcollector.getTimeSeries. simpl. rewrite Hskip.
  by apply rangeAttributes_ext.
Qed.

(** C6: when the mapper succeeds, its result has exactly one line per
    accepted attribute (recognized key, value interpreted without error), in
    the order of the visit, of the shape
    smartthings_sensors{id="ID" name="NAME" attr="KEY"} = VALUE
    where VALUE is the float as [%v] prints it; nothing else is in the
    result. The device d1/Door with contact = "open", battery = 87.5 and
    foo = "bar" yields, in whatever order its attributes are visited, no
    error and exactly the two lines of contact (value 0.0) and battery
    (value 87.5). *)
Theorem getTimeSeries_lines (devinfo : DeviceInfo) (lines : list string)
    (attrs : list (string * value)) :
  (getTimeSeries devinfo = Some (lines, None) →
   lines = omap (λ kv : string * value,
             match switch kv.1 (nilToEmpty kv.2) with
             | Some (Some (x, None)) =>
               Some ("smartthings_sensors{id=" +:+ quoted (ID devinfo)
                     +:+ " name=" +:+ quoted (DisplayName devinfo)
                     +:+ " attr=" +:+ quoted kv.1 +:+ "} = "
                     +:+ FormatFloat x)
             | _ => None
             end) (Attributes devinfo))
  ∧ (attrs ≡ₚ [("contact", VString "open"); ("battery", VFloat 87.5);
               ("foo", VString "bar")] →
     ∃ out, getTimeSeries {| ID := "d1"; DisplayName := "Door";
                             Attributes := attrs |} = Some (out, None)
            ∧ out ≡ₚ ["smartthings_sensors{id=" +:+ quoted "d1" +:+ " name="
                      +:+ quoted "Door" +:+ " attr=" +:+ quoted "contact"
                      +:+ "} = " +:+ FormatFloat 0%float;
                      "smartthings_sensors{id=" +:+ quoted "d1" +:+ " name="
                      +:+ quoted "Door" +:+ " attr=" +:+ quoted "battery"
                      +:+ "} = " +:+ FormatFloat 87.5%float]).
Proof.
  split.
  - intros H.
    pose proof (rangeAttributes_ok _ _ _ _ _ _ H) as Hok.
    rewrite (getTimeSeries_passes _ _ _ Hok) in H.
    injection H as <-. reflexivity.
  - intros Hperm.
    set (d := {| ID := "d1"; DisplayName := "Door"; Attributes := attrs |}).
    assert (Hok : Forall (passes FormatFloat IsPrintTable) (Attributes d)).
    { simpl. rewrite Hperm.
      apply Forall_cons; split; [right; eexists; reflexivity|].
      apply Forall_cons; split; [right; eexists; reflexivity|].
      apply Forall_cons; split; [left; reflexivity|]. apply Forall_nil_2. }
    eexists. split; [exact (getTimeSeries_passes _ _ d Hok)|].
    simpl. rewrite Hperm. reflexivity.
Qed.

End MapperClaims.

(** ** Properties of the writer *)

Lemma append_assoc (a b c : string) : (a +:+ b) +:+ c = a +:+ b +:+ c.
Proof.
  induction a as [|x a IH]; [done|].
  change (String x ((a +:+ b) +:+ c) = String x (a +:+ b +:+ c)).
  by rewrite IH.
Qed.

Lemma length_append (a b : string) :
  String.length (a +:+ b) = (String.length a + String.length b)%nat.
Proof.
  induction a as [|x a IH]; [done|].
  change (S (String.length (a +:+ b))
          = S (String.length a + String.length b)).
  by rewrite IH.
Qed.

Section WriterFacts.
Variable k : os.Kernel.

Lemma tempname_fresh fname : tempname k fname ≠ fname.
Proof.
  intros H. apply (f_equal String.length) in H.
  unfold tempname in H. rewrite length_append in H.
  change (String.length ("-" +:+ ?x)) with (S (String.length x)) in H.
  lia.
Qed.

Lemma append_nil_r (a : string) : a +:+ "" = a.
Proof.
  induction a as [|x a IH]; [done|].
  change (String x (a +:+ "") = String x a). by rewrite IH.
Qed.

(** A write that does not fail appends its data. *)
Lemma Write_ok path fs c b :
  os.writeFault k (<[path := c]> fs) path b = None →
  os.Write k (<[path := c]> fs) {| os.name := path; os.closed := false |} b
  = ((String.length b, None), <[path := c +:+ b]> fs).
Proof.
  intros Hw. unfold os.Write. simpl. rewrite Hw.
  by rewrite alter_insert_eq.
Qed.

(** Writes that do not fail append every line and its newline, in order. *)
Lemma writeLines_ok path ts fs c :
  (∀ fs' b, os.writeFault k fs' path b = None) →
  writeLines k {| os.name := path; os.closed := false |} ts (<[path := c]> fs)
  = <[path := c +:+ unlines ts]> fs.
Proof.
  intros Hw. unfold writeLines. revert c.
  induction ts as [|v ts IH]; intros c; simpl.
  - by rewrite append_nil_r.
  - rewrite Write_ok by apply Hw. simpl.
    rewrite IH. by rewrite append_assoc, append_assoc.
Qed.

(** A rename that does not fail moves the contents onto the new path. *)
Lemma Rename_ok oldpath newpath fs c :
  os.renameFault k (<[oldpath := c]> fs) oldpath newpath = None →
  os.Rename k (<[oldpath := c]> fs) oldpath newpath
  = (None, <[newpath := c]> (delete oldpath fs)).
Proof.
  intros Hr. unfold os.Rename. rewrite Hr, lookup_insert_eq.
  by rewrite delete_insert_eq.
Qed.

(** A run on which nothing fails stores the text of the lines. *)
Lemma saveTimeSeries_ok fname ts fs :
  os.createFault k fs (tempname k fname) = None →
  (∀ fs' b, os.writeFault k fs' (tempname k fname) b = None) →
  (∀ fs', os.renameFault k fs' (tempname k fname) fname = None) →
  saveTimeSeries k fname ts fs
  = (None, <[fname := unlines ts]> (delete (tempname k fname) fs)).
Proof.
  intros Hc Hw Hr. unfold saveTimeSeries, os.Create. rewrite Hc.
  rewrite writeLines_ok by done. by rewrite Rename_ok.
Qed.

(** The calls before the rename never make [saveTimeSeries] fail: an error
    it returns is the one of [os.Create] or the one of [os.Rename]. *)
Lemma saveTimeSeries_error fname ts fs e :
  (saveTimeSeries k fname ts fs).1 = Some e →
  (os.Create k fs (tempname k fname)).1 = inr e
  ∨ ∃ fs', (os.Rename k fs' (tempname k fname) fname).1 = Some e.
Proof.
  unfold saveTimeSeries.
  destruct (os.Create k fs (tempname k fname)) as [[w|msg] fs1] eqn:Hc; simpl.
  - destruct (os.Rename k _ (tempname k fname) fname) as [[e'|] fs2] eqn:Hr;
      simpl; intros H; [|done].
    right. eexists. rewrite Hr. done.
  - intros [= ->]. by left.
Qed.

End WriterFacts.

(** ** The claims about the writer *)

(** C2 (the code departs from the claim): a failed write and a failed close
    are not reported and do not stop the rename. On a disk with room for
    three bytes the write of the second line stores one byte and fails; the
    function still renames the temporary file onto the target, which then
    holds the truncated text, and returns [nil]. A failing close is not
    reported either. *)
Theorem saveTimeSeries_drops_write_error :
  let target := "/run/textfile_collector/smartcollector.prom" in
  let fs := {[ target := "old" +:+ newline ]} in
  let w := {| os.name := tempname (diskFull 3) target; os.closed := false |} in
  (os.Write (diskFull 3)
     (<[tempname (diskFull 3) target := "a" +:+ newline]> fs) w
     ("bcd" +:+ newline)).1
  = (1%nat, Some ("write " +:+ tempname (diskFull 3) target
                  +:+ ": no space left on device"))
  ∧ (saveTimeSeries (diskFull 3) target ["a"; "bcd"] fs).1 = None
  ∧ (saveTimeSeries (diskFull 3) target ["a"; "bcd"] fs).2 !! target
    = Some ("a" +:+ newline +:+ "b")
  ∧ (saveTimeSeries (diskFull 3) target ["a"; "bcd"] fs).2
    !! tempname (diskFull 3) target = None
  ∧ (os.Close closeFails (<[tempname closeFails target := "a" +:+ newline]> fs)
       {| os.name := tempname closeFails target; os.closed := false |}).1
    = Some ("close " +:+ tempname closeFails target
            +:+ ": input/output error")
  ∧ (saveTimeSeries closeFails target ["a"] fs).1 = None.
Proof. vm_compute. repeat split; reflexivity. Qed.

Section WriterClaims.
Variable k : os.Kernel.

(** C7: when creating the temporary file, the writes and the rename do not
    fail, [saveTimeSeries] uses the temporary path made of the target path,
    the process identifier and the parent's (a path other than the target),
    fills it with every line followed by a newline in the given order, and
    renames it onto the target in one step: the target then holds that text
    whatever was there before, the temporary path is gone, and no error is
    returned. *)
Theorem saveTimeSeries_writes (fname : string) (ts : list string)
    (fs : gmap string string) :
  os.createFault k fs (tempname k fname) = None →
  (∀ fs' b, os.writeFault k fs' (tempname k fname) b = None) →
  (∀ fs', os.renameFault k fs' (tempname k fname) fname = None) →
  tempname k fname
  = fname +:+ "-" +:+ pretty (os.Getpid k) +:+ "-" +:+ pretty (os.Getppid k)
  ∧ tempname k fname ≠ fname
  ∧ writeLines k {| os.name := tempname k fname; os.closed := false |} ts
      (os.Create k fs (tempname k fname)).2
    = <[tempname k fname := unlines ts]> fs
  ∧ os.Rename k (<[tempname k fname := unlines ts]> fs) (tempname k fname) fname
    = (None, <[fname := unlines ts]> (delete (tempname k fname) fs))
  ∧ saveTimeSeries k fname ts fs
    = (None, <[fname := unlines ts]> (delete (tempname k fname) fs))
  ∧ (saveTimeSeries k fname ts fs).2 !! fname = Some (unlines ts)
  ∧ (saveTimeSeries k fname ts fs).2 !! tempname k fname = None.
Proof.
  intros Hc Hw Hr.
  pose proof (saveTimeSeries_ok k fname ts fs Hc Hw Hr) as Hsave.
  split; [done|]. split; [apply tempname_fresh|].
  split; [unfold os.Create; rewrite Hc; simpl; by rewrite writeLines_ok|].
  split; [by apply Rename_ok|]. split; [done|]. rewrite Hsave. simpl.
  split; [apply lookup_insert_eq|].
  rewrite lookup_insert_ne by (intros H; by apply (tempname_fresh k fname)).
  apply lookup_delete_eq.
Qed.

End WriterClaims.

(** ** Properties of the program *)

Lemma endsWithNewline_append (a : string) :
  endsWithNewline (a +:+ newline) = true.
Proof.
  induction a as [|x a IH]; [done|].
  change (endsWithNewline (String x (a +:+ newline)) = true).
  simpl. rewrite IH. by destruct (a +:+ newline).
Qed.

Lemma Fatalf_line (msg : string) (w : World) :
  Fatalf (msg +:+ newline) w
  = ({| files := files w; stdout := stdout w;
        stderr := stderr w +:+ msg +:+ newline; requests := requests w |},
     Exit 1).
Proof. unfold Fatalf. by rewrite endsWithNewline_append. Qed.

Lemma println_all (ts : list string) (w : World) :
  foldl (λ w v, Println v w) w ts
  = {| files := files w; stdout := stdout w +:+ unlines ts;
       stderr := stderr w; requests := requests w |}.
Proof.
  revert w. induction ts as [|v ts IH]; intros w; simpl.
  - rewrite append_nil_r. by destruct w.
  - rewrite IH. simpl. by rewrite append_assoc, append_assoc.
Qed.

Section MainFacts.
Variable FormatFloat : float -> string.
Variable IsPrintTable : N -> bool.
Variable Join : string -> string -> string.
Variable cloud : Cloud.
Variable k : os.Kernel.

Local Abbreviation collect := (collect FormatFloat IsPrintTable cloud).
Local Abbreviation gather := (gather FormatFloat IsPrintTable cloud).
Local Abbreviation deviceLines := (deviceLines FormatFloat IsPrintTable cloud).

(** Devices that are fetched and mapped without error only add their lines
    and their requests. *)
Lemma collect_passes endpoint dpre rest tss ts w :
  Forall2 (λ dev t, deviceLines endpoint dev = Some t) dpre tss →
  collect endpoint (dpre ++ rest) ts w
  = collect endpoint rest (ts ++ concat tss) (requested dpre w).
Proof.
  intros H. revert ts w.
  induction H as [|dev t dpre tss Hdev _ IH]; intros ts w.
  - simpl. rewrite app_nil_r. unfold requested. rewrite app_nil_r.
    by destruct w.
  - simpl. unfold props.deviceLines in Hdev.
    destruct (GetDeviceInfo cloud endpoint dev) as [devinfo|]; [|done].
    destruct (getTimeSeries FormatFloat IsPrintTable devinfo)
      as [[t' [e|]]|]; try done.
    injection Hdev as ->. rewrite IH.
    unfold requested, request. simpl.
    by rewrite <- !app_assoc.
Qed.

(** A device whose attributes fail interpretation ends the process. *)
Lemma collect_fails endpoint dev rest ts w devinfo t e :
  GetDeviceInfo cloud endpoint dev = inl devinfo →
  getTimeSeries FormatFloat IsPrintTable devinfo = Some (t, Some e) →
  collect endpoint (dev :: rest) ts w
  = ({| files := files w; stdout := stdout w;
        stderr := stderr w +:+ "Error processing sensor data: " +:+ e
                  +:+ newline;
        requests := requests w ++ [dev] |}, inr (Exit 1)).
Proof.
  intros Hinfo Hts. cbn [smartcollector.collect]. rewrite Hinfo, Hts.
  change ("Error processing sensor data: " +:+ e +:+ newline)
    with (("Error processing sensor data: " +:+ e) +:+ newline).
  rewrite Fatalf_line. simpl. by rewrite append_assoc.
Qed.

(** The device loop leaves the files and the standard output alone. *)
Lemma collect_quiet endpoint devs ts w w' r :
  collect endpoint devs ts w = (w', r) →
  files w' = files w ∧ stdout w' = stdout w.
Proof.
  revert ts w. induction devs as [|dev devs IH]; intros ts w; simpl.
  - by intros [= <- _].
  - destruct (GetDeviceInfo cloud endpoint dev) as [devinfo|err].
    + destruct (getTimeSeries FormatFloat IsPrintTable devinfo)
        as [[t [e|]]|].
      * by intros [= <- _].
      * intros H. by apply IH in H.
      * by intros [= <- _].
    + by intros [= <- _].
Qed.

(** The collection stage does not read the dry-run flag. *)
Lemma gather_dry_run client secret dir b b' w :
  gather {| flagClient := client; flagSecret := secret;
            flagTextFileCollectorDir := dir; flagDryRun := b |} w
  = gather {| flagClient := client; flagSecret := secret;
              flagTextFileCollectorDir := dir; flagDryRun := b' |} w.
Proof. reflexivity. Qed.

(** When lines were collected, the files are those the token loader left. *)
Lemma gather_files flags w w1 ts :
  gather flags w = (w1, inl ts) →
  flagClient flags ≠ ""
  ∧ files w1
    = files (GetToken cloud
               (tokenFilePrefix +:+ "_" +:+ flagClient flags +:+ ".json")
               (flagClient flags) (flagSecret flags) w).2
  ∧ stdout w1
    = stdout (GetToken cloud
                (tokenFilePrefix +:+ "_" +:+ flagClient flags +:+ ".json")
                (flagClient flags) (flagSecret flags) w).2.
Proof.
  unfold smartcollector.gather. case_decide as Hc; [done|].
  destruct (GetToken cloud _ _ _ w) as [[err|] w0]; [done|].
  destruct (GetEndPointsURI cloud) as [endpoint|err]; [|done].
  destruct (GetDevices cloud endpoint) as [devs|err]; [|done].
  intros H. apply collect_quiet in H. simpl. tauto.
Qed.

End MainFacts.

(** ** The claims about the program *)

Section MainClaims.
Variable FormatFloat : float -> string.
Variable IsPrintTable : N -> bool.
Variable Join : string -> string -> string.
Variable cloud : Cloud.
Variable k : os.Kernel.

Local Abbreviation switch := (switch FormatFloat IsPrintTable).
Local Abbreviation getTimeSeries := (getTimeSeries FormatFloat IsPrintTable).
Local Abbreviation passes := (passes FormatFloat IsPrintTable).
Local Abbreviation deviceLines := (deviceLines FormatFloat IsPrintTable cloud).
Local Abbreviation gather := (gather FormatFloat IsPrintTable cloud).
Local Abbreviation emit := (emit Join k).
Local Abbreviation main := (main FormatFloat IsPrintTable Join cloud k).

(** C5: when the attribute [key] is the first of a device whose value fails
    interpretation, [getTimeSeries] returns that error and no line, whatever
    the earlier attributes produced and whatever follows. When that device
    is reached by [main] after devices that were mapped without error, the
    process ends with status 1 and the error on standard error; nothing is
    printed, no file is written, and the details of the remaining devices
    are never requested. *)
Theorem fail_fast (devinfo : DeviceInfo) (pre rest : list (string * value))
    (key : string) (val : value) (x : float) (e : string)
    (flags : Flags) (w w1 : World) (endpoint dev : string)
    (dpre drest : list string) (tss : list (list string)) :
  Attributes devinfo = pre ++ (key, val) :: rest →
  Forall passes pre →
  switch key (nilToEmpty val) = Some (Some (x, Some e)) →
  flagClient flags ≠ "" →
  GetToken cloud (tokenFilePrefix +:+ "_" +:+ flagClient flags +:+ ".json")
    (flagClient flags) (flagSecret flags) w = (None, w1) →
  GetEndPointsURI cloud = inl endpoint →
  GetDevices cloud endpoint = inl (dpre ++ dev :: drest) →
  Forall2 (λ d t, deviceLines endpoint d = Some t) dpre tss →
  GetDeviceInfo cloud endpoint dev = inl devinfo →
  getTimeSeries devinfo = Some ([], Some e)
  ∧ main flags w
    = ({| files := files w1;
          stdout := stdout w1;
          stderr := stderr w1 +:+ "Error processing sensor data: " +:+ e
                    +:+ newline;
          requests := requests w1 ++ dpre ++ [dev] |}, Exit 1).
Proof.
  intros Hattrs Hpre Hfail Hclient Htoken Hend Hdevs Hdpre Hinfo.
  assert (Hts : getTimeSeries devinfo = Some ([], Some e)).
  { unfold smartcollector.getTimeSeries. rewrite Hattrs.
    rewrite rangeAttributes_passes by done.
    by apply rangeAttributes_fails with x. }
  split; [done|].
  unfold smartcollector.main, smartcollector.gather.
  rewrite decide_False by done. rewrite Htoken, Hend, Hdevs.
  rewrite collect_passes with (tss := tss) by done.
  rewrite collect_fails with (devinfo := devinfo) (t := []) (e := e) by done.
  simpl. by rewrite <- app_assoc.
Qed.

(** C8: with the lines [ts] collected, a dry run prints exactly the text
    that a normal run stores in the output file (every line followed by a
    newline, in order) and leaves the files as the token loader left them;
    the normal run, when no file operation fails, stores that text and
    prints nothing. *)
Theorem dry_run_same_lines (client secret dir : string) (w w1 : World)
    (ts : list string) :
  gather {| flagClient := client; flagSecret := secret;
            flagTextFileCollectorDir := dir; flagDryRun := false |} w
  = (w1, inl ts) →
  main {| flagClient := client; flagSecret := secret;
          flagTextFileCollectorDir := dir; flagDryRun := true |} w
  = ({| files := files w1; stdout := stdout w1 +:+ unlines ts;
        stderr := stderr w1; requests := requests w1 |}, Exit 0)
  ∧ files w1
    = files (GetToken cloud (tokenFilePrefix +:+ "_" +:+ client +:+ ".json")
               client secret w).2
  ∧ (os.createFault k (files w1)
       (tempname k (Join dir textFileCollectorName)) = None →
     (∀ fs' b, os.writeFault k fs'
                 (tempname k (Join dir textFileCollectorName)) b = None) →
     (∀ fs', os.renameFault k fs'
               (tempname k (Join dir textFileCollectorName))
               (Join dir textFileCollectorName) = None) →
     main {| flagClient := client; flagSecret := secret;
             flagTextFileCollectorDir := dir; flagDryRun := false |} w
     = ({| files := <[Join dir textFileCollectorName := unlines ts]>
                      (delete (tempname k (Join dir textFileCollectorName))
                              (files w1));
           stdout := stdout w1; stderr := stderr w1;
           requests := requests w1 |}, Exit 0)).
Proof.
  intros Hg. split; [|split].
  - unfold smartcollector.main.
    rewrite (gather_dry_run _ _ _ _ _ _ true false), Hg.
    unfold smartcollector.emit. simpl. by rewrite println_all.
  - by apply gather_files in Hg as (_ & Hf & _).
  - intros Hc Hw Hr. unfold smartcollector.main. rewrite Hg.
    unfold smartcollector.emit. simpl.
    by rewrite saveTimeSeries_ok.
Qed.

(** C10: with an empty list of lines, and when creating and renaming the
    temporary file do not fail, [saveTimeSeries] creates the temporary file
    empty and renames it onto the target: the target exists afterwards with
    zero length, whatever it held before, and no error is returned. A normal
    run of [main] that collected no line does just that to the output
    file. *)
Theorem saveTimeSeries_empty (fname : string) (fs : gmap string string)
    (flags : Flags) (w w1 : World) :
  os.createFault k fs (tempname k fname) = None →
  os.renameFault k (<[tempname k fname := ""]> fs) (tempname k fname) fname
  = None →
  (os.Create k fs (tempname k fname)).2 !! tempname k fname = Some ""
  ∧ saveTimeSeries k fname [] fs
    = (None, <[fname := ""]> (delete (tempname k fname) fs))
  ∧ (saveTimeSeries k fname [] fs).2 !! fname = Some ""
  ∧ (fs = files w1 →
     fname = Join (flagTextFileCollectorDir flags) textFileCollectorName →
     flagDryRun flags = false →
     gather flags w = (w1, inl []) →
     main flags w
     = ({| files := <[fname := ""]> (delete (tempname k fname) (files w1));
           stdout := stdout w1; stderr := stderr w1;
           requests := requests w1 |}, Exit 0)).
Proof.
  intros Hc Hr.
  assert (Hsave : saveTimeSeries k fname [] fs
    = (None, <[fname := ""]> (delete (tempname k fname) fs))).
  { unfold saveTimeSeries, os.Create. rewrite Hc. simpl.
    by rewrite Rename_ok. }
  split; [unfold os.Create; rewrite Hc; apply lookup_insert_eq|].
  split; [done|]. rewrite Hsave. split; [apply lookup_insert_eq|].
  intros -> Hf Hdry Hg. unfold smartcollector.main. rewrite Hg.
  unfold smartcollector.emit. rewrite Hdry, <- Hf, Hsave. reflexivity.
Qed.

End MainClaims.

(** ** The claims at concrete inputs *)

(** The switch attribute, with the values "on" and "unknown". *)
Lemma valueOneOf_enums_witness :
  ("switch", ("off", "on")) ∈ enums
  ∧ switch sampleFormatFloat sampleIsPrint "switch" (nilToEmpty (VString "on"))
    = Some (Some (1%float, None))
  ∧ switch sampleFormatFloat sampleIsPrint "switch"
      (nilToEmpty (VString "unknown"))
    = Some (Some (0%float,
                  Some ("invalid option " +:+ quoted "unknown"
                        +:+ ". Expected " +:+ quoted "off" +:+ " or "
                        +:+ quoted "on"))).
Proof.
  assert (H : ("switch", ("off", "on")) ∈ enums)
    by (unfold enums; repeat constructor).
  destruct (valueOneOf_enums sampleFormatFloat sampleIsPrint
              "switch" "off" "on" H) as (_ & H1 & H2 & _).
  split; [exact H|]. split; [exact H1|].
  destruct (H2 "unknown") as [H3 H4]; [discriminate..|].
  rewrite H3, H4 by reflexivity. reflexivity.
Defined.

(** The battery attribute, with the values 87.5 and null. *)
Lemma valueFloat_numerics_witness :
  "battery" ∈ numerics
  ∧ switch sampleFormatFloat sampleIsPrint "battery" (nilToEmpty (VFloat 87.5))
    = Some (Some (87.5%float, None))
  ∧ switch sampleFormatFloat sampleIsPrint "battery" (nilToEmpty VNil)
    = Some (Some (0%float, Some "invalid non floating-point argument ")).
Proof.
  assert (H : "battery" ∈ numerics) by (unfold numerics; repeat constructor).
  destruct (valueFloat_numerics sampleFormatFloat sampleIsPrint "battery" H)
    as (H1 & _ & H2 & _).
  split; [exact H|]. split; [apply H1|].
  apply (H2 VNil). discriminate.
Defined.

(** The attribute foo of the device [door]. *)
Lemma unrecognized_skipped_witness :
  ("foo" ∉ recognized)
  ∧ getTimeSeries sampleFormatFloat sampleIsPrint door
    = getTimeSeries sampleFormatFloat sampleIsPrint
        {| ID := "d1"; DisplayName := "Door";
           Attributes := [("contact", VString "open");
                          ("battery", VFloat 87.5)] |}.
Proof.
  assert (H : "foo" ∉ recognized) by compute_done.
  split; [exact H|].
  exact (proj2 (proj2 (unrecognized_skipped sampleFormatFloat sampleIsPrint
                         door "foo" (VString "bar")
                         [("contact", VString "open");
                          ("battery", VFloat 87.5)] [] [] H))).
Defined.

(** The device [door], visited in its own order and in another one. *)
Lemma getTimeSeries_lines_witness :
  getTimeSeries sampleFormatFloat sampleIsPrint door = Some (doorLines, None)
  ∧ doorLines = omap (accepted sampleFormatFloat sampleIsPrint door)
                     (Attributes door)
  ∧ [("battery", VFloat 87.5); ("contact", VString "open");
     ("foo", VString "bar")] ≡ₚ Attributes door
  ∧ ∃ out,
      getTimeSeries sampleFormatFloat sampleIsPrint
        {| ID := "d1"; DisplayName := "Door";
           Attributes := [("battery", VFloat 87.5);
                          ("contact", VString "open");
                          ("foo", VString "bar")] |} = Some (out, None)
      ∧ out ≡ₚ doorLines.
Proof.
  assert (H1 : getTimeSeries sampleFormatFloat sampleIsPrint door
               = Some (doorLines, None)) by reflexivity.
  assert (H2 : [("battery", VFloat 87.5); ("contact", VString "open");
                ("foo", VString "bar")] ≡ₚ Attributes door)
    by apply perm_swap.
  destruct (getTimeSeries_lines sampleFormatFloat sampleIsPrint door doorLines
              [("battery", VFloat 87.5); ("contact", VString "open");
               ("foo", VString "bar")]) as [G1 G2].
  split; [exact H1|]. split; [exact (G1 H1)|]. split; [exact H2|].
  exact (G2 H2).
Defined.

(** Two lines written over a stale output file, process 4711 of parent 1. *)
Lemma saveTimeSeries_writes_witness :
  os.createFault quiet (files staleWorld)
    (tempname quiet (sampleJoin textFileCollectorDir textFileCollectorName))
  = None
  ∧ tempname quiet (sampleJoin textFileCollectorDir textFileCollectorName)
    = "/run/textfile_collector/smartcollector.prom-4711-1"
  ∧ saveTimeSeries quiet
      (sampleJoin textFileCollectorDir textFileCollectorName)
      ["a"; "b"] (files staleWorld)
    = (None, <[sampleJoin textFileCollectorDir textFileCollectorName
               := "a" +:+ newline +:+ "b" +:+ newline]>
               (delete (tempname quiet
                          (sampleJoin textFileCollectorDir
                                      textFileCollectorName))
                       (files staleWorld))).
Proof.
  destruct (saveTimeSeries_writes quiet
              (sampleJoin textFileCollectorDir textFileCollectorName)
              ["a"; "b"] (files staleWorld))
    as (H1 & _ & _ & _ & H2 & _).
  - reflexivity.
  - intros fs' b. reflexivity.
  - intros fs'. reflexivity.
  - split; [reflexivity|]. split; [rewrite H1; reflexivity|exact H2].
Defined.

(** The device [plug] fails at its switch attribute, after [door] and before
    the third device. *)
Lemma fail_fast_witness :
  getTimeSeries sampleFormatFloat sampleIsPrint plug
  = Some ([], Some ("invalid option " +:+ quoted "unknown" +:+ ". Expected "
                    +:+ quoted "off" +:+ " or " +:+ quoted "on"))
  ∧ main sampleFormatFloat sampleIsPrint sampleJoin sampleCloud quiet
      (sampleFlags false) staleWorld
    = ({| files := files staleWorld;
          stdout := "";
          stderr := "Error processing sensor data: invalid option "
                    +:+ quoted "unknown" +:+ ". Expected " +:+ quoted "off"
                    +:+ " or " +:+ quoted "on" +:+ newline;
          requests := ["d1"; "d2"] |}, Exit 1).
Proof.
  apply (fail_fast sampleFormatFloat sampleIsPrint sampleJoin sampleCloud quiet
           plug [("power", VFloat 1)] [] "switch" (VString "unknown")
           0%float
           ("invalid option " +:+ quoted "unknown" +:+ ". Expected "
            +:+ quoted "off" +:+ " or " +:+ quoted "on")
           (sampleFlags false) staleWorld staleWorld
           "https://graph.api.smartthings.com/api/smartapps/x" "d2"
           ["d1"] ["d3"] [doorLines]).
  - reflexivity.
  - apply Forall_cons; split; [right; eexists; reflexivity|apply Forall_nil_2].
  - reflexivity.
  - discriminate.
  - reflexivity.
  - reflexivity.
  - reflexivity.
  - apply Forall2_cons; split; [reflexivity|apply Forall2_nil_2].
  - reflexivity.
Defined.

(** A dry run and a normal run over the device [door]. *)
Lemma dry_run_same_lines_witness :
  gather sampleFormatFloat sampleIsPrint doorCloud (sampleFlags false)
    staleWorld
  = (requested ["d1"] staleWorld, inl doorLines)
  ∧ main sampleFormatFloat sampleIsPrint sampleJoin doorCloud quiet
      (sampleFlags true) staleWorld
    = ({| files := files staleWorld; stdout := unlines doorLines;
          stderr := ""; requests := ["d1"] |}, Exit 0)
  ∧ main sampleFormatFloat sampleIsPrint sampleJoin doorCloud quiet
      (sampleFlags false) staleWorld
    = ({| files := <[sampleJoin textFileCollectorDir textFileCollectorName
                     := unlines doorLines]>
                     (delete (tempname quiet
                                (sampleJoin textFileCollectorDir
                                            textFileCollectorName))
                             (files staleWorld));
          stdout := ""; stderr := ""; requests := ["d1"] |}, Exit 0).
Proof.
  assert (Hg : gather sampleFormatFloat sampleIsPrint doorCloud
                 (sampleFlags false) staleWorld
               = (requested ["d1"] staleWorld, inl doorLines))
    by reflexivity.
  destruct (dry_run_same_lines sampleFormatFloat sampleIsPrint sampleJoin
              doorCloud quiet "client" "" textFileCollectorDir staleWorld
              (requested ["d1"] staleWorld) doorLines Hg)
    as (H1 & _ & H2).
  split; [exact Hg|]. split; [exact H1|].
  apply H2.
  - reflexivity.
  - intros fs' b. reflexivity.
  - intros fs'. reflexivity.
Defined.

(** A normal run that collects no line, over a stale output file. *)
Lemma saveTimeSeries_empty_witness :
  gather sampleFormatFloat sampleIsPrint bareCloud (sampleFlags false)
    staleWorld
  = (requested ["d9"] staleWorld, inl [])
  ∧ files staleWorld
    !! sampleJoin textFileCollectorDir textFileCollectorName
    = Some ("smartthings_sensors 1" +:+ newline)
  ∧ (saveTimeSeries quiet
       (sampleJoin textFileCollectorDir textFileCollectorName) []
       (files staleWorld)).2
    !! sampleJoin textFileCollectorDir textFileCollectorName
    = Some ""
  ∧ main sampleFormatFloat sampleIsPrint sampleJoin bareCloud quiet
      (sampleFlags false) staleWorld
    = ({| files := <[sampleJoin textFileCollectorDir textFileCollectorName
                     := ""]>
                     (delete (tempname quiet
                                (sampleJoin textFileCollectorDir
                                            textFileCollectorName))
                             (files staleWorld));
          stdout := ""; stderr := ""; requests := ["d9"] |}, Exit 0).
Proof.
  assert (Hg : gather sampleFormatFloat sampleIsPrint bareCloud
                 (sampleFlags false) staleWorld
               = (requested ["d9"] staleWorld, inl []))
    by reflexivity.
  destruct (saveTimeSeries_empty sampleFormatFloat sampleIsPrint sampleJoin
              bareCloud quiet
              (sampleJoin textFileCollectorDir textFileCollectorName)
              (files staleWorld) (sampleFlags false) staleWorld
              (requested ["d9"] staleWorld))
    as (_ & _ & H1 & H2).
  - reflexivity.
  - reflexivity.
  - split; [exact Hg|]. split; [reflexivity|]. split; [exact H1|].
    apply H2; reflexivity || exact Hg.
Defined.

(** ** Further properties of the mapper *)

Section MapperMore.
Variable FormatFloat : float -> string.
Variable IsPrintTable : N -> bool.

Local Abbreviation switch := (switch FormatFloat IsPrintTable).
Local Abbreviation valueOneOf := (valueOneOf FormatFloat IsPrintTable).
Local Abbreviation getTimeSeries := (getTimeSeries FormatFloat IsPrintTable).
Local Abbreviation rangeAttributes := (rangeAttributes FormatFloat IsPrintTable).
Local Abbreviation accepted := (accepted FormatFloat IsPrintTable).
Local Abbreviation passes := (passes FormatFloat IsPrintTable).

Lemma switch_recognized key val : key ∈ recognized → switch key val ≠ None.
Proof.
  unfold recognized. intros H.
  repeat (apply elem_of_cons in H as [->|H]);
    [..|by apply elem_of_nil in H];
    unfold smartcollector.switch; repeat case_decide; done.
Qed.

(** The loop with lines already collected, in terms of the loop from
    scratch. *)
Lemma rangeAttributes_acc devinfo attrs ret :
  rangeAttributes devinfo attrs ret
  = match rangeAttributes devinfo attrs [] with
    | Some (l, None) => Some (ret ++ l, None)
    | r => r
    end.
Proof.
  revert ret. induction attrs as [|[key val] attrs IH]; intros ret; simpl.
  - by rewrite app_nil_r.
  - destruct (switch key (nilToEmpty val)) as [[[x [e|]]|]|]; simpl; auto.
    rewrite (IH (ret ++ _)), (IH [_]).
    destruct (rangeAttributes devinfo attrs []) as [[l [e|]]|]; auto.
    by rewrite <- app_assoc.
Qed.

(** An error comes from the first attribute that does not pass, and comes
    without lines. *)
Lemma rangeAttributes_error devinfo attrs ret lines e :
  rangeAttributes devinfo attrs ret = Some (lines, Some e) →
  lines = []
  ∧ ∃ pre key val rest x,
      attrs = pre ++ (key, val) :: rest
      ∧ Forall passes pre
      ∧ switch key (nilToEmpty val) = Some (Some (x, Some e)).
Proof.
  revert ret. induction attrs as [|[key val] attrs IH]; intros ret; simpl.
  - discriminate.
  - destruct (switch key (nilToEmpty val)) as [[[x [e'|]]|]|] eqn:E; simpl.
    + intros [= <- <-]. split; [done|].
      by exists [], key, val, attrs, x.
    + intros H. apply IH in H as (-> & pre & k' & v' & rest & x' & -> & Hp & Hs).
      split; [done|].
      exists ((key, val) :: pre), k', v', rest, x'.
      split; [done|]. split; [|done].
      apply Forall_cons. split; [right; eauto|done].
    + discriminate.
    + intros H. apply IH in H as (-> & pre & k' & v' & rest & x' & -> & Hp & Hs).
      split; [done|].
      exists ((key, val) :: pre), k', v', rest, x'.
      split; [done|]. split; [|done].
      apply Forall_cons. split; [by left|done].
Qed.

(** When some attribute does not pass, the loop ends with an error. *)
Lemma rangeAttributes_not_passes devinfo attrs ret :
  ¬ Forall passes attrs →
  ∃ e, rangeAttributes devinfo attrs ret = Some ([], Some e).
Proof.
  intros Hn.
  destruct (rangeAttributes_total FormatFloat IsPrintTable devinfo attrs ret)
    as [[lines [e|]] Hr].
  - destruct (rangeAttributes_error _ _ _ _ _ Hr) as [-> _]. eauto.
  - by apply rangeAttributes_ok in Hr.
Qed.

Lemma accepted_count attrs devinfo :
  Forall passes attrs →
  length (omap (accepted devinfo) attrs)
  = length (filter (λ kv : string * value, kv.1 ∈ recognized) attrs).
Proof.
  induction 1 as [|[key val] attrs Hkv _ IH]; [done|].
  rewrite filter_cons. unfold props.accepted at 1. cbn [omap list_omap fst snd].
  fold (omap (accepted devinfo) attrs).
  destruct (decide (key ∈ recognized)) as [Hin|Hout]; simpl.
  - destruct Hkv as [Hkv|[x Hkv]]; simpl in Hkv.
    + by apply switch_recognized in Hkv.
    + rewrite Hkv. simpl. f_equal. exact IH.
  - rewrite (switch_unrecognized _ _ _ _ Hout). exact IH.
Qed.

Lemma nilToEmpty_idemp val : nilToEmpty (nilToEmpty val) = nilToEmpty val.
Proof. by destruct val. Qed.

Lemma rangeAttributes_nils devinfo attrs ret :
  rangeAttributes devinfo (nilsToEmpty attrs) ret
  = rangeAttributes devinfo attrs ret.
Proof.
  revert ret. induction attrs as [|[key val] attrs IH]; intros ret; [done|].
  unfold nilsToEmpty. rewrite fmap_cons. fold (nilsToEmpty attrs).
  cbn [smartcollector.rangeAttributes fst snd]. rewrite nilToEmpty_idemp.
  destruct (switch key (nilToEmpty val)) as [[[x [e|]]|]|]; simpl; auto.
Qed.

(** X1: [valueOneOf] panics on a slice read exactly when the value is a
    string and the options are empty, or hold a single option that is not
    the value; with two options or more, and for every value that is not a
    string, it returns. *)
Theorem valueOneOf_out_of_range (v : value) (options : list string) :
  valueOneOf v options = None
  ↔ ∃ s, v = VString s ∧ (options = [] ∨ ∃ o, options = [o] ∧ s ≠ o).
Proof.
  destruct v as [|s|f|b|r]; simpl;
    try (split; [discriminate|intros (s' & Hs & _); discriminate]).
  destruct options as [|o0 [|o1 rest]]; simpl.
  - split; [intros _; exists s; eauto|done].
  - case_decide as Hd; simpl.
    + split; [discriminate|].
      intros (s' & [= <-] & [Ho|(o & [= <-] & Hne)]); done.
    + split; [intros _; exists s; split; [done|right; eauto]|done].
  - repeat case_decide; simpl;
      (split; [discriminate|]);
      intros (s' & _ & [Ho|(o & Ho & _)]); discriminate.
Qed.

(** X2: the switch takes its default branch exactly for the keys outside the
    eleven names: no recognized key is ever skipped. *)
Theorem switch_default_iff (key : string) (val : value) :
  switch key val = None ↔ key ∉ recognized.
Proof.
  split.
  - intros H Hin. by apply (switch_recognized key val) in Hin.
  - apply switch_unrecognized.
Qed.

(** X3: [getTimeSeries] returns for every device: it never panics, and it
    never returns lines together with an error. *)
Theorem getTimeSeries_returns (devinfo : DeviceInfo) :
  ∃ lines err,
    getTimeSeries devinfo = Some (lines, err) ∧ (err = None ∨ lines = []).
Proof.
  unfold smartcollector.getTimeSeries.
  destruct (rangeAttributes_total FormatFloat IsPrintTable devinfo
              (Attributes devinfo) []) as [[lines [e|]] Hr].
  - exists lines, (Some e). split; [done|]. right.
    by destruct (rangeAttributes_error _ _ _ _ _ Hr).
  - exists lines, None. split; [done|by left].
Qed.

(** X4: an error of [getTimeSeries] is the error of the first attribute, in
    visiting order, whose value fails interpretation; every attribute before
    it was skipped or accepted. *)
Theorem getTimeSeries_error_origin (devinfo : DeviceInfo)
    (lines : list string) (e : string) :
  getTimeSeries devinfo = Some (lines, Some e) →
  ∃ pre key val rest x,
    Attributes devinfo = pre ++ (key, val) :: rest
    ∧ Forall passes pre
    ∧ switch key (nilToEmpty val) = Some (Some (x, Some e)).
Proof. intros H. by apply rangeAttributes_error in H as [_ H]. Qed.

(** X5: when [getTimeSeries] succeeds, it returns as many lines as the
    device has attributes with a recognized key. *)
Theorem getTimeSeries_line_count (devinfo : DeviceInfo)
    (lines : list string) :
  getTimeSeries devinfo = Some (lines, None) →
  length lines
  = length (filter (λ kv : string * value, kv.1 ∈ recognized)
                   (Attributes devinfo)).
Proof.
  intros H. pose proof (rangeAttributes_ok _ _ _ _ _ _ H) as Hok.
  rewrite (getTimeSeries_passes _ _ _ Hok) in H. injection H as <-.
  by apply accepted_count.
Qed.

(** X6: a null attribute value is mapped exactly as the empty string is. *)
Theorem null_as_empty_string (devinfo : DeviceInfo) :
  getTimeSeries {| ID := ID devinfo; DisplayName := DisplayName devinfo;
                   Attributes := nilsToEmpty (Attributes devinfo) |}
  = getTimeSeries devinfo.
Proof.
  unfold smartcollector.getTimeSeries. simpl. rewrite rangeAttributes_nils.
  by apply rangeAttributes_ext.
Qed.

(** X7: whether the mapper succeeds does not depend on the order in which
    the attributes are visited: if it succeeds in one order it succeeds in
    every order, with the same lines in some order; if it fails in one order
    it fails in every order, with no line. *)
Theorem getTimeSeries_any_order (d d' : DeviceInfo) :
  ID d = ID d' → DisplayName d = DisplayName d' →
  Attributes d ≡ₚ Attributes d' →
  (∀ lines, getTimeSeries d = Some (lines, None) →
     ∃ lines', getTimeSeries d' = Some (lines', None) ∧ lines ≡ₚ lines')
  ∧ (∀ lines e, getTimeSeries d = Some (lines, Some e) →
       ∃ e', getTimeSeries d' = Some ([], Some e')).
Proof.
  intros Hid Hname Hperm. split.
  - intros lines H. pose proof (rangeAttributes_ok _ _ _ _ _ _ H) as Hok.
    rewrite (getTimeSeries_passes _ _ _ Hok) in H. injection H as <-.
    assert (Hok' : Forall passes (Attributes d')) by by rewrite <- Hperm.
    eexists. split; [by apply getTimeSeries_passes|].
    assert (Hacc : ∀ l : list (string * value),
               omap (accepted d) l = omap (accepted d') l).
    { assert (Hkv : ∀ kv, accepted d kv = accepted d' kv).
      { intros kv. unfold props.accepted, line. by rewrite Hid, Hname. }
      intros l. induction l as [|kv l IH]; [done|].
      cbn [omap list_omap]. rewrite Hkv.
      destruct (accepted d' kv); [f_equal|]; exact IH. }
    by rewrite Hacc, Hperm.
  - intros lines e H. apply rangeAttributes_not_passes.
    intros Hok'. rewrite <- Hperm in Hok'.
    rewrite (getTimeSeries_passes _ _ _ Hok') in H. discriminate.
Qed.

(** X8: mapping the attributes [a1 ++ a2] is mapping [a1] and then [a2]: an
    error of the first part is the result; otherwise an error of the second
    part is the result; otherwise the lines of both, in that order. *)
Theorem getTimeSeries_app (id name : string)
    (a1 a2 : list (string * value)) :
  getTimeSeries {| ID := id; DisplayName := name; Attributes := a1 ++ a2 |}
  = match getTimeSeries {| ID := id; DisplayName := name;
                           Attributes := a1 |} with
    | Some (l1, None) =>
      match getTimeSeries {| ID := id; DisplayName := name;
                             Attributes := a2 |} with
      | Some (l2, None) => Some (l1 ++ l2, None)
      | r => r
      end
    | r => r
    end.
Proof.
  unfold smartcollector.getTimeSeries. simpl.
  set (d := {| ID := id; DisplayName := name; Attributes := a1 ++ a2 |}).
  rewrite (rangeAttributes_ext _ _ {| ID := id; DisplayName := name;
                                      Attributes := a1 |} d a1 [])
    by done.
  rewrite (rangeAttributes_ext _ _ {| ID := id; DisplayName := name;
                                      Attributes := a2 |} d a2 [])
    by done.
  destruct (rangeAttributes_total FormatFloat IsPrintTable d a1 [])
    as [[l1 [e|]] Hr]; rewrite Hr.
  - apply rangeAttributes_error in Hr
      as (-> & pre & key & val & rest & x & -> & Hpre & Hfail).
    rewrite <- app_assoc, <- app_comm_cons.
    rewrite rangeAttributes_passes by done.
    by apply rangeAttributes_fails with x.
  - pose proof (rangeAttributes_ok _ _ _ _ _ _ Hr) as Hok.
    pose proof Hr as Hr'.
    rewrite <- (app_nil_r a1), rangeAttributes_passes in Hr' by done.
    simpl in Hr'. injection Hr' as <-.
    rewrite rangeAttributes_passes by done. simpl.
    apply rangeAttributes_acc.
Qed.

(** X9: for alarmState, carbonMonoxide and smoke a value is interpreted
    without error exactly when it is null or a string; a value of any other
    dynamic type is an error. *)
Theorem clear_sentinel_accepts (key : string) (v : value) :
  key ∈ clearKeys →
  (∃ x, switch key (nilToEmpty v) = Some (Some (x, None)))
  ↔ (v = VNil ∨ ∃ s, v = VString s).
Proof.
  unfold clearKeys. intros H.
  repeat (apply elem_of_cons in H as [->|H]); [..|by apply elem_of_nil in H].
  all: destruct v as [|s|f|b|r]; simpl; unfold smartcollector.switch; simpl;
    unfold valueClear; try case_decide;
    (split; [intros [x Hx]|intros [Hv|[s' Hv]]]);
    try discriminate; eauto.
Qed.

End MapperMore.

(** ** Further properties of the writer *)

Lemma append_cons (a : ascii) (s t : string) :
  String a s +:+ t = String a (s +:+ t).
Proof. reflexivity. Qed.

Lemma append_nil_l (s : string) : "" +:+ s = s.
Proof. reflexivity. Qed.

(** Two texts cut at the first occurrence of a separator are equal part by
    part. *)
Lemma append_sep_inj (c : ascii) (a a' x y : string) :
  lacks c a → lacks c a' →
  a +:+ String c x = a' +:+ String c y → a = a' ∧ x = y.
Proof.
  revert a'. induction a as [|b a IH]; intros [|b' a'] Ha Ha' H.
  - rewrite !append_nil_l in H. by injection H as ->.
  - rewrite append_nil_l, append_cons in H. injection H as <- _.
    by destruct Ha' as [[] _].
  - rewrite append_nil_l, append_cons in H. injection H as -> _.
    by destruct Ha as [[] _].
  - rewrite !append_cons in H. injection H as -> H.
    destruct Ha as [_ Ha], Ha' as [_ Ha'].
    destruct (IH a' Ha Ha' H) as [-> ->]. done.
Qed.

(** The text of lines without newline characters determines the lines. *)
Lemma unlines_inj (ts ts' : list string) :
  Forall (lacks "010"%char) ts → Forall (lacks "010"%char) ts' →
  unlines ts = unlines ts' → ts = ts'.
Proof.
  intros Hts. revert ts'.
  induction Hts as [|v ts Hv _ IH]; intros ts' Hts' H;
    destruct Hts' as [|v' ts' Hv' Hts'].
  - done.
  - simpl in H. destruct v'; discriminate.
  - simpl in H. destruct v; discriminate.
  - simpl in H. apply append_sep_inj in H as [-> H]; [|done..].
    by rewrite (IH ts' Hts' H).
Qed.

(** A decimal rendering holds no minus sign unless the number is negative. *)
Lemma pretty_N_go_lacks (x : N) (s : string) :
  lacks "-"%char s → lacks "-"%char (pretty_N_go x s).
Proof.
  revert s. induction (N.lt_wf_0 x) as [x _ IH]; intros s Hs.
  destruct (decide (x = 0)%N) as [->|Hx]; [by rewrite pretty_N_go_0|].
  rewrite pretty_N_go_step by lia. apply IH; [apply N.div_lt; lia|].
  split; [|done]. unfold pretty_N_char. by repeat case_match.
Qed.

Lemma pretty_Z_lacks (z : Z) : (0 ≤ z)%Z → lacks "-"%char (pretty z).
Proof.
  intros Hz. destruct z as [|p|p]; [by repeat split| |lia].
  unfold pretty, pretty_Z, pretty, pretty_positive, pretty, pretty_N.
  case_decide; [done|]. by apply pretty_N_go_lacks.
Qed.

Section WriterMore.
Variable k : os.Kernel.

(** Writing through a file changes no other path. *)
Lemma writeLines_frame w ts fs path :
  path ≠ os.name w → writeLines k w ts fs !! path = fs !! path.
Proof.
  intros Hp. unfold writeLines. revert fs.
  induction ts as [|v ts IH]; intros fs; [done|]. simpl. rewrite IH.
  unfold os.Write. destruct (os.closed w); [done|].
  destruct (os.writeFault k fs (os.name w) (v +:+ newline)) as [[n msg]|];
    simpl; by rewrite lookup_alter_ne.
Qed.

(** Writing through a file keeps the file in place. *)
Lemma writeLines_present w ts fs :
  is_Some (fs !! os.name w) → is_Some (writeLines k w ts fs !! os.name w).
Proof.
  unfold writeLines. revert fs.
  induction ts as [|v ts IH]; intros fs Hfs; [done|]. simpl. apply IH.
  unfold os.Write. destruct (os.closed w); [done|].
  destruct (os.writeFault k fs (os.name w) (v +:+ newline)) as [[n msg]|];
    simpl; rewrite lookup_alter_eq; by apply fmap_is_Some.
Qed.

(** What [saveTimeSeries] comes to once the temporary file is created,
    whatever the writes and the close do. *)
Lemma saveTimeSeries_created fname ts fs :
  os.createFault k fs (tempname k fname) = None →
  ∃ c,
    writeLines k {| os.name := tempname k fname; os.closed := false |} ts
      (<[tempname k fname := ""]> fs) !! tempname k fname = Some c
    ∧ saveTimeSeries k fname ts fs
      = match os.renameFault k
                (writeLines k {| os.name := tempname k fname;
                                 os.closed := false |} ts
                   (<[tempname k fname := ""]> fs))
                (tempname k fname) fname with
        | Some msg =>
          (Some msg,
           writeLines k {| os.name := tempname k fname; os.closed := false |}
             ts (<[tempname k fname := ""]> fs))
        | None =>
          (None,
           <[fname := c]>
             (delete (tempname k fname)
                (writeLines k {| os.name := tempname k fname;
                                 os.closed := false |} ts
                   (<[tempname k fname := ""]> fs))))
        end.
Proof.
  intros Hc.
  destruct (writeLines_present
              {| os.name := tempname k fname; os.closed := false |} ts
              (<[tempname k fname := ""]> fs)) as [c Hlook].
  { simpl. rewrite lookup_insert_eq. eauto. }
  exists c. split; [exact Hlook|].
  unfold saveTimeSeries, os.Create. rewrite Hc. cbn zeta.
  unfold os.Rename.
  destruct (os.renameFault k _ (tempname k fname) fname) as [msg|]; [done|].
  simpl in Hlook. rewrite Hlook. done.
Qed.

(** X10: whatever fails, [saveTimeSeries] changes no path other than the
    target and its temporary file. *)
Theorem saveTimeSeries_frame (fname : string) (ts : list string)
    (fs : gmap string string) (path : string) :
  path ≠ fname → path ≠ tempname k fname →
  (saveTimeSeries k fname ts fs).2 !! path = fs !! path.
Proof.
  intros Hf Ht.
  destruct (os.createFault k fs (tempname k fname)) as [msg|] eqn:Hc.
  - unfold saveTimeSeries, os.Create. by rewrite Hc.
  - destruct (saveTimeSeries_created fname ts fs Hc) as (c & _ & ->).
    destruct (os.renameFault k _ (tempname k fname) fname); simpl.
    + rewrite writeLines_frame by done. by rewrite lookup_insert_ne.
    + rewrite lookup_insert_ne, lookup_delete_ne by done.
      rewrite writeLines_frame by done. by rewrite lookup_insert_ne.
Qed.

(** X11: when [saveTimeSeries] returns an error, the target path is as it
    was before the call. *)
Theorem saveTimeSeries_error_keeps_target (fname : string)
    (ts : list string) (fs : gmap string string) (e : string) :
  (saveTimeSeries k fname ts fs).1 = Some e →
  (saveTimeSeries k fname ts fs).2 !! fname = fs !! fname.
Proof.
  destruct (os.createFault k fs (tempname k fname)) as [msg|] eqn:Hc.
  - unfold saveTimeSeries, os.Create. by rewrite Hc.
  - destruct (saveTimeSeries_created fname ts fs Hc) as (c & _ & ->).
    destruct (os.renameFault k _ (tempname k fname) fname); simpl; [|done].
    intros _. rewrite writeLines_frame by (simpl; apply not_eq_sym, tempname_fresh).
    rewrite lookup_insert_ne by apply tempname_fresh. done.
Qed.

(** X12: when the rename fails after the file was created and written,
    [saveTimeSeries] returns the error of the rename and leaves the
    temporary file behind, holding the text of the lines; it does not remove
    it. *)
Theorem saveTimeSeries_rename_fails (fname : string) (ts : list string)
    (fs : gmap string string) (msg : string) :
  os.createFault k fs (tempname k fname) = None →
  (∀ fs' b, os.writeFault k fs' (tempname k fname) b = None) →
  os.renameFault k (<[tempname k fname := unlines ts]> fs)
    (tempname k fname) fname = Some msg →
  saveTimeSeries k fname ts fs
  = (Some msg, <[tempname k fname := unlines ts]> fs).
Proof.
  intros Hc Hw Hr.
  destruct (saveTimeSeries_created fname ts fs Hc) as (c & _ & ->).
  rewrite writeLines_ok by done. rewrite append_nil_l. by rewrite Hr.
Qed.

(** X13: saving replaces and does not append: when no call fails, saving one
    list of lines and then another leaves the files as saving the second
    list alone does. *)
Theorem saveTimeSeries_replaces (fname : string) (ts1 ts2 : list string)
    (fs : gmap string string) :
  (∀ fs', os.createFault k fs' (tempname k fname) = None) →
  (∀ fs' b, os.writeFault k fs' (tempname k fname) b = None) →
  (∀ fs', os.renameFault k fs' (tempname k fname) fname = None) →
  saveTimeSeries k fname ts2 (saveTimeSeries k fname ts1 fs).2
  = saveTimeSeries k fname ts2 fs.
Proof.
  intros Hc Hw Hr. rewrite !saveTimeSeries_ok by done. simpl. f_equal.
  rewrite delete_insert_ne by apply tempname_fresh.
  by rewrite delete_delete_eq, insert_insert_eq.
Qed.

(** X14: [saveTimeSeries] returns [nil] exactly when creating the temporary
    file and renaming it do not fail: no failure of a write or of the close
    changes its result. *)
Theorem saveTimeSeries_nil_iff (fname : string) (ts : list string)
    (fs : gmap string string) :
  (saveTimeSeries k fname ts fs).1 = None
  ↔ os.createFault k fs (tempname k fname) = None
    ∧ os.renameFault k
        (writeLines k {| os.name := tempname k fname; os.closed := false |}
           ts (<[tempname k fname := ""]> fs))
        (tempname k fname) fname = None.
Proof.
  destruct (os.createFault k fs (tempname k fname)) as [msg|] eqn:Hc.
  - unfold saveTimeSeries, os.Create. rewrite Hc. simpl.
    split; [discriminate|]. by intros [? _].
  - destruct (saveTimeSeries_created fname ts fs Hc) as (c & _ & ->).
    destruct (os.renameFault k _ (tempname k fname) fname); simpl.
    + split; [discriminate|]. by intros [_ ?].
    + done.
Qed.

(** X15: when [saveTimeSeries] returns [nil], the target file exists and
    the temporary file is gone. *)
Theorem saveTimeSeries_nil_target (fname : string) (ts : list string)
    (fs : gmap string string) :
  (saveTimeSeries k fname ts fs).1 = None →
  is_Some ((saveTimeSeries k fname ts fs).2 !! fname)
  ∧ (saveTimeSeries k fname ts fs).2 !! tempname k fname = None.
Proof.
  destruct (os.createFault k fs (tempname k fname)) as [msg|] eqn:Hc.
  - unfold saveTimeSeries, os.Create. by rewrite Hc.
  - destruct (saveTimeSeries_created fname ts fs Hc) as (c & _ & ->).
    destruct (os.renameFault k _ (tempname k fname) fname); simpl; [done|].
    intros _. split; [rewrite lookup_insert_eq; eauto|].
    rewrite lookup_insert_ne by (apply not_eq_sym, tempname_fresh).
    apply lookup_delete_eq.
Qed.

(** X16: the stored file determines the lines: when no call fails, two lists
    of lines without newline characters that leave the same text in the
    target file are the same list. *)
Theorem saveTimeSeries_lines_determined (fname : string)
    (ts ts' : list string) (fs : gmap string string) :
  os.createFault k fs (tempname k fname) = None →
  (∀ fs' b, os.writeFault k fs' (tempname k fname) b = None) →
  (∀ fs', os.renameFault k fs' (tempname k fname) fname = None) →
  Forall (lacks "010"%char) ts → Forall (lacks "010"%char) ts' →
  (saveTimeSeries k fname ts fs).2 !! fname
  = (saveTimeSeries k fname ts' fs).2 !! fname →
  ts = ts'.
Proof.
  intros Hc Hw Hr Hts Hts'. rewrite !saveTimeSeries_ok by done. simpl.
  rewrite !lookup_insert_eq. intros [= H]. by apply unlines_inj.
Qed.

End WriterMore.

(** X17: for one target, the temporary names of two processes whose
    identifiers are not negative are equal only if both the process and the
    parent identifiers are equal. *)
Theorem tempname_inj (k k' : os.Kernel) (fname : string) :
  (0 ≤ os.Getpid k)%Z → (0 ≤ os.Getppid k)%Z →
  (0 ≤ os.Getpid k')%Z → (0 ≤ os.Getppid k')%Z →
  tempname k fname = tempname k' fname →
  os.Getpid k = os.Getpid k' ∧ os.Getppid k = os.Getppid k'.
Proof.
  intros Hp Hpp Hp' Hpp' H. unfold tempname in H.
  apply (inj (String.app fname)) in H.
  rewrite !append_cons, !append_nil_l in H. injection H as H.
  apply append_sep_inj in H as [H1 H2]; [|by apply pretty_Z_lacks..].
  split; by apply (inj pretty).
Qed.

(** ** Further properties of the program *)

(** A successful save put the target in place and removed the temporary
    file. *)
Lemma saveTimeSeries_nil_shape (k : os.Kernel) (fname : string)
    (ts : list string) (fs : gmap string string) :
  (saveTimeSeries k fname ts fs).1 = None →
  ∃ c fs1,
    (saveTimeSeries k fname ts fs).2
    = <[fname := c]> (delete (tempname k fname) fs1).
Proof.
  destruct (os.createFault k fs (tempname k fname)) as [msg|] eqn:Hc.
  - unfold saveTimeSeries, os.Create. by rewrite Hc.
  - destruct (saveTimeSeries_created k fname ts fs Hc) as (c & _ & ->).
    destruct (os.renameFault k _ (tempname k fname) fname); simpl; [done|].
    eauto.
Qed.

Section MainMore.
Variable FormatFloat : float -> string.
Variable IsPrintTable : N -> bool.
Variable Join : string -> string -> string.
Variable cloud : Cloud.
Variable k : os.Kernel.

Local Abbreviation getTimeSeries := (getTimeSeries FormatFloat IsPrintTable).
Local Abbreviation deviceLines := (deviceLines FormatFloat IsPrintTable cloud).
Local Abbreviation collect := (collect FormatFloat IsPrintTable cloud).
Local Abbreviation gather := (gather FormatFloat IsPrintTable cloud).
Local Abbreviation emit := (emit Join k).
Local Abbreviation main := (main FormatFloat IsPrintTable Join cloud k).

(** The world the device loop starts from: the given one when the client
    identifier is missing, else the one the token loader leaves. *)
Local Abbreviation loaded flags w :=
  (if decide (flagClient flags = "") then w
   else (GetToken cloud
           (tokenFilePrefix +:+ "_" +:+ flagClient flags +:+ ".json")
           (flagClient flags) (flagSecret flags) w).2).

(** The device loop ends the process with status 1 only, and requests the
    devices in order, up to the one it stops at. *)
Lemma collect_shape endpoint devs ts w w' r :
  collect endpoint devs ts w = (w', r) →
  files w' = files w ∧ stdout w' = stdout w
  ∧ (∀ e, r = inr e → e = Exit 1)
  ∧ ∃ n, requests w' = requests w ++ take n devs
         ∧ (∀ ts', r = inl ts' → n = length devs).
Proof.
  revert ts w. induction devs as [|dev devs IH]; intros ts w.
  - simpl. intros [= <- <-]. repeat split; [done|].
    exists 0%nat. by rewrite app_nil_r.
  - cbn [smartcollector.collect].
    assert (Hstop : ∀ msg,
      (let '(w0, e) := Fatalf msg (request dev w) in (w0, inr e)) = (w', r) →
      files w' = files w ∧ stdout w' = stdout w
      ∧ (∀ e, r = inr e → e = Exit 1)
      ∧ ∃ n, requests w' = requests w ++ take n (dev :: devs)
             ∧ (∀ ts', r = inl ts' → n = length (dev :: devs))).
    { intros msg. unfold Fatalf. intros [= <- <-]. simpl.
      repeat split; [by intros e [= <-]|]. by exists 1%nat. }
    destruct (GetDeviceInfo cloud endpoint dev) as [devinfo|err]; [|apply Hstop].
    destruct (rangeAttributes_total FormatFloat IsPrintTable devinfo
                (Attributes devinfo) []) as [[t [e|]] Ht];
      unfold smartcollector.getTimeSeries; rewrite Ht; [apply Hstop|].
    intros H. apply IH in H as (Hf & Ho & He & n & Hn & Hlen).
    repeat split; [done..|]. exists (S n). simpl in *.
    split; [by rewrite Hn, <- app_assoc|]. intros ts' Hts'. f_equal. eauto.
Qed.

(** The collection stage as a whole. *)
Lemma gather_shape flags w w' r :
  gather flags w = (w', r) →
  files w' = files (loaded flags w) ∧ stdout w' = stdout (loaded flags w)
  ∧ (∀ e, r = inr e → e = Exit 1).
Proof.
  unfold smartcollector.gather. case_decide as Hc.
  - unfold Fatalf. intros [= <- <-]. repeat split. by intros e [= <-].
  - destruct (GetToken cloud _ _ _ w) as [[err|] w0]; simpl.
    { unfold Fatalf. intros [= <- <-]. repeat split. by intros e [= <-]. }
    destruct (GetEndPointsURI cloud) as [endpoint|err].
    2: { unfold Fatalf. intros [= <- <-]. repeat split. by intros e [= <-]. }
    destruct (GetDevices cloud endpoint) as [devs|err].
    2: { unfold Fatalf. intros [= <- <-]. repeat split. by intros e [= <-]. }
    intros H. apply collect_shape in H. tauto.
Qed.


(** X19: a dry run writes no file, however it ends: the files after [main]
    are those the token loader left (those given, when the client identifier
    is missing). *)
Theorem dry_run_never_writes (flags : Flags) (w : World) :
  flagDryRun flags = true →
  files (main flags w).1 = files (loaded flags w).
Proof.
  intros Hdry. unfold smartcollector.main.
  destruct (gather flags w) as [w' [ts|e]] eqn:Hg;
    apply gather_shape in Hg as (Hf & _ & _); [|done].
  unfold smartcollector.emit. rewrite Hdry. simpl.
  by rewrite println_all.
Qed.

(** X20: when the details of a device cannot be fetched, after devices that
    were fetched and mapped without error, [main] ends with status 1 and the
    error on standard error; nothing is printed, no file is written, and the
    remaining devices are not requested. *)
Theorem device_fetch_fails (flags : Flags) (w w1 : World)
    (endpoint dev err : string) (dpre drest : list string)
    (tss : list (list string)) :
  flagClient flags ≠ "" →
  GetToken cloud (tokenFilePrefix +:+ "_" +:+ flagClient flags +:+ ".json")
    (flagClient flags) (flagSecret flags) w = (None, w1) →
  GetEndPointsURI cloud = inl endpoint →
  GetDevices cloud endpoint = inl (dpre ++ dev :: drest) →
  Forall2 (λ d t, deviceLines endpoint d = Some t) dpre tss →
  GetDeviceInfo cloud endpoint dev = inr err →
  main flags w
  = ({| files := files w1;
        stdout := stdout w1;
        stderr := stderr w1 +:+ "Error reading device info: " +:+ err
                  +:+ newline;
        requests := requests w1 ++ dpre ++ [dev] |}, Exit 1).
Proof.
  intros Hclient Htoken Hend Hdevs Hdpre Hinfo.
  unfold smartcollector.main, smartcollector.gather.
  rewrite decide_False by done. rewrite Htoken, Hend, Hdevs.
  rewrite collect_passes with (tss := tss) by done.
  cbn [smartcollector.collect]. rewrite Hinfo.
  change ("Error reading device info: " +:+ err +:+ newline)
    with (("Error reading device info: " +:+ err) +:+ newline).
  rewrite Fatalf_line. simpl. by rewrite <- app_assoc, append_assoc.
Qed.


(** X22: the devices whose details [main] requests are a prefix of the
    device list, in its order; when [main] ends with status 0 every device
    of the list was requested. *)
Theorem requests_prefix (flags : Flags) (w w1 : World) (endpoint : string)
    (devs : list string) :
  flagClient flags ≠ "" →
  GetToken cloud (tokenFilePrefix +:+ "_" +:+ flagClient flags +:+ ".json")
    (flagClient flags) (flagSecret flags) w = (None, w1) →
  GetEndPointsURI cloud = inl endpoint →
  GetDevices cloud endpoint = inl devs →
  ∃ n, requests (main flags w).1 = requests w1 ++ take n devs
       ∧ ((main flags w).2 = Exit 0 → n = length devs).
Proof.
  intros Hclient Htoken Hend Hdevs.
  unfold smartcollector.main, smartcollector.gather.
  rewrite decide_False by done. rewrite Htoken, Hend, Hdevs.
  destruct (collect endpoint devs [] w1) as [w' [ts|e]] eqn:Hcol;
    apply collect_shape in Hcol as (_ & _ & He & n & Hn & Hlen).
  - exists n. split; [|intros _; by apply (Hlen ts)].
    unfold smartcollector.emit. destruct (flagDryRun flags).
    + simpl. by rewrite println_all.
    + destruct (saveTimeSeries k _ ts (files w')) as [[err|] fs]; [|done].
      by unfold Fatalf.
  - exists n. split; [done|]. simpl. by rewrite (He e).
Qed.

(** X23: when a normal run ends with status 0, the output file exists and
    its temporary file is gone. *)
Theorem exit_zero_output_exists (flags : Flags) (w : World) :
  flagDryRun flags = false →
  (main flags w).2 = Exit 0 →
  is_Some (files (main flags w).1
           !! Join (flagTextFileCollectorDir flags) textFileCollectorName)
  ∧ files (main flags w).1
    !! tempname k (Join (flagTextFileCollectorDir flags)
                        textFileCollectorName) = None.
Proof.
  intros Hdry. unfold smartcollector.main.
  destruct (gather flags w) as [w' [ts|e]] eqn:Hg.
  - unfold smartcollector.emit. rewrite Hdry.
    destruct (saveTimeSeries k _ ts (files w')) as [[err|] fs] eqn:Hs.
    { unfold Fatalf. discriminate. }
    intros _. simpl.
    destruct (saveTimeSeries_nil_shape k
                (Join (flagTextFileCollectorDir flags) textFileCollectorName)
                ts (files w')) as (c & fs1 & Hfs).
    { by rewrite Hs. }
    rewrite Hs in Hfs. simpl in Hfs. subst fs.
    split; [rewrite lookup_insert_eq; eauto|].
    rewrite lookup_insert_ne by (apply not_eq_sym, tempname_fresh).
    apply lookup_delete_eq.
  - apply gather_shape in Hg as (_ & _ & He). simpl.
    rewrite (He e) by done. discriminate.
Qed.

(** X24: without a client identifier [main] ends with status 1 before any
    call to the cloud: the token loader is not run, no device is requested,
    and the world is as given but for the message on standard error. *)
Theorem missing_client (flags : Flags) (w : World) :
  flagClient flags = "" →
  main flags w
  = ({| files := files w; stdout := stdout w;
        stderr := stderr w +:+ "Must specify Client ID (--client)"
                  +:+ newline;
        requests := requests w |}, Exit 1).
Proof.
  intros Hc. unfold smartcollector.main, smartcollector.gather.
  rewrite decide_True by done. by rewrite <- Fatalf_line.
Qed.

(** X25: when the token, the endpoint or the device list cannot be fetched,
    [main] ends with status 1 without requesting any device, printing
    anything or writing any file. *)
Theorem setup_fails (flags : Flags) (w w1 : World) (err : error) :
  flagClient flags ≠ "" →
  GetToken cloud (tokenFilePrefix +:+ "_" +:+ flagClient flags +:+ ".json")
    (flagClient flags) (flagSecret flags) w = (err, w1) →
  (err ≠ None
   ∨ (∃ e, GetEndPointsURI cloud = inr e)
   ∨ (∃ endpoint e, GetEndPointsURI cloud = inl endpoint
                    ∧ GetDevices cloud endpoint = inr e)) →
  (main flags w).2 = Exit 1
  ∧ requests (main flags w).1 = requests w1
  ∧ stdout (main flags w).1 = stdout w1
  ∧ files (main flags w).1 = files w1.
Proof.
  intros Hclient Htoken Hfail.
  unfold smartcollector.main, smartcollector.gather.
  rewrite decide_False by done. rewrite Htoken.
  destruct err as [e|]; [by unfold Fatalf|].
  destruct Hfail as [Hn|[[e He]|(endpoint & e & He & Hd)]]; [done|..].
  - rewrite He. by unfold Fatalf.
  - rewrite He, Hd. by unfold Fatalf.
Qed.

End MainMore.

(** ** The further properties at concrete inputs *)

(** The device [plug] fails at its switch attribute, after power. *)
Lemma getTimeSeries_error_origin_witness :
  getTimeSeries sampleFormatFloat sampleIsPrint plug
  = Some ([], Some plugError)
  ∧ ∃ pre key val rest x,
      Attributes plug = pre ++ (key, val) :: rest
      ∧ Forall (passes sampleFormatFloat sampleIsPrint) pre
      ∧ switch sampleFormatFloat sampleIsPrint key (nilToEmpty val)
        = Some (Some (x, Some plugError)).
Proof.
  split; [reflexivity|].
  apply (getTimeSeries_error_origin sampleFormatFloat sampleIsPrint plug []).
  reflexivity.
Defined.

(** The device [door] has two recognized attributes and yields two lines. *)
Lemma getTimeSeries_line_count_witness :
  getTimeSeries sampleFormatFloat sampleIsPrint door = Some (doorLines, None)
  ∧ length doorLines
    = length (filter (λ kv : string * value, kv.1 ∈ recognized)
                     (Attributes door)).
Proof.
  split; [reflexivity|].
  apply (getTimeSeries_line_count sampleFormatFloat sampleIsPrint).
  reflexivity.
Defined.

(** The device [door] in two visiting orders. *)
Lemma getTimeSeries_any_order_witness :
  Attributes door ≡ₚ Attributes doorSwapped
  ∧ ∃ lines',
      getTimeSeries sampleFormatFloat sampleIsPrint doorSwapped
      = Some (lines', None)
      ∧ doorLines ≡ₚ lines'.
Proof.
  assert (H : Attributes door ≡ₚ Attributes doorSwapped) by apply perm_swap.
  split; [exact H|].
  apply (proj1 (getTimeSeries_any_order sampleFormatFloat sampleIsPrint
                  door doorSwapped eq_refl eq_refl H)).
  reflexivity.
Defined.

(** A null smoke value is interpreted without error. *)
Lemma clear_sentinel_accepts_witness :
  "smoke" ∈ clearKeys
  ∧ ∃ x, switch sampleFormatFloat sampleIsPrint "smoke" (nilToEmpty VNil)
         = Some (Some (x, None)).
Proof.
  assert (H : "smoke" ∈ clearKeys) by (unfold clearKeys; repeat constructor).
  split; [exact H|].
  apply (clear_sentinel_accepts sampleFormatFloat sampleIsPrint "smoke" VNil H).
  by left.
Defined.

(** A save on a full disk leaves the file of the other collector alone. *)
Lemma saveTimeSeries_frame_witness :
  (saveTimeSeries (diskFull 3) target ["a"; "bcd"] crowded).2
  !! "/run/textfile_collector/node.prom"
  = crowded !! "/run/textfile_collector/node.prom".
Proof.
  apply saveTimeSeries_frame.
  - discriminate.
  - intros H. vm_compute in H. discriminate.
Defined.

(** A save whose rename is refused keeps the stale output file. *)
Lemma saveTimeSeries_error_keeps_target_witness :
  (saveTimeSeries renameFails target ["a"] crowded).1
  = Some ("rename " +:+ tempname renameFails target +:+ " " +:+ target
          +:+ ": permission denied")
  ∧ (saveTimeSeries renameFails target ["a"] crowded).2 !! target
    = crowded !! target.
Proof.
  split; [reflexivity|].
  eapply saveTimeSeries_error_keeps_target. reflexivity.
Defined.

(** A save whose rename is refused leaves its temporary file behind. *)
Lemma saveTimeSeries_rename_fails_witness :
  saveTimeSeries renameFails target ["a"] crowded
  = (Some ("rename " +:+ tempname renameFails target +:+ " " +:+ target
           +:+ ": permission denied"),
     <[tempname renameFails target := unlines ["a"]]> crowded).
Proof.
  apply saveTimeSeries_rename_fails.
  - reflexivity.
  - intros fs' b. reflexivity.
  - reflexivity.
Defined.

(** Two saves in a row. *)
Lemma saveTimeSeries_replaces_witness :
  saveTimeSeries quiet target ["b"]
    (saveTimeSeries quiet target ["a"] crowded).2
  = saveTimeSeries quiet target ["b"] crowded.
Proof.
  apply saveTimeSeries_replaces.
  - intros fs'. reflexivity.
  - intros fs' b. reflexivity.
  - intros fs'. reflexivity.
Defined.

(** A save on a full disk returns [nil]: the target exists. *)
Lemma saveTimeSeries_nil_target_witness :
  (saveTimeSeries (diskFull 3) target ["a"; "bcd"] crowded).1 = None
  ∧ is_Some ((saveTimeSeries (diskFull 3) target ["a"; "bcd"] crowded).2
             !! target)
  ∧ (saveTimeSeries (diskFull 3) target ["a"; "bcd"] crowded).2
    !! tempname (diskFull 3) target = None.
Proof.
  split; [reflexivity|].
  apply saveTimeSeries_nil_target. reflexivity.
Defined.

(** Two lines without newline. *)
Lemma saveTimeSeries_lines_determined_witness :
  Forall (lacks "010"%char) ["a"; "b"]
  ∧ (saveTimeSeries quiet target ["a"; "b"] crowded).2 !! target
    = Some ("a" +:+ newline +:+ "b" +:+ newline)
  ∧ ["a"; "b"] = ["a"; "b"].
Proof.
  assert (H : Forall (lacks "010"%char) ["a"; "b"])
    by (repeat constructor; discriminate).
  split; [exact H|]. split; [reflexivity|].
  apply (saveTimeSeries_lines_determined quiet target ["a"; "b"] ["a"; "b"]
           crowded); try done.
Defined.

(** Two kernels of the same process. *)
Lemma tempname_inj_witness :
  tempname quiet target = tempname renameFails target
  ∧ os.Getpid quiet = os.Getpid renameFails
  ∧ os.Getppid quiet = os.Getppid renameFails.
Proof.
  split; [reflexivity|].
  apply (tempname_inj quiet renameFails target); done.
Defined.

(** A dry run over a stale output file. *)
Lemma dry_run_never_writes_witness :
  files (main sampleFormatFloat sampleIsPrint sampleJoin sampleCloud quiet
           (sampleFlags true) staleWorld).1
  = files staleWorld.
Proof.
  apply (dry_run_never_writes sampleFormatFloat sampleIsPrint sampleJoin
           sampleCloud quiet (sampleFlags true) staleWorld).
  reflexivity.
Defined.

(** The details of d2 cannot be fetched, after d1 and before d3. *)
Lemma device_fetch_fails_witness :
  main sampleFormatFloat sampleIsPrint sampleJoin flakyCloud quiet
    (sampleFlags false) staleWorld
  = ({| files := files staleWorld;
        stdout := "";
        stderr := "Error reading device info: request timed out"
                  +:+ newline;
        requests := ["d1"; "d2"] |}, Exit 1).
Proof.
  apply (device_fetch_fails sampleFormatFloat sampleIsPrint sampleJoin
           flakyCloud quiet (sampleFlags false) staleWorld staleWorld
           "https://graph.api.smartthings.com/api/smartapps/x" "d2"
           "request timed out" ["d1"] ["d3"] [doorLines]).
  - discriminate.
  - reflexivity.
  - reflexivity.
  - reflexivity.
  - apply Forall2_cons; split; [reflexivity|apply Forall2_nil_2].
  - reflexivity.
Defined.


(** The run that fails at d2 requested d1 and d2. *)
Lemma requests_prefix_witness :
  ∃ n, requests (main sampleFormatFloat sampleIsPrint sampleJoin sampleCloud
                   quiet (sampleFlags false) staleWorld).1
       = requests staleWorld ++ take n ["d1"; "d2"; "d3"]
       ∧ ((main sampleFormatFloat sampleIsPrint sampleJoin sampleCloud quiet
             (sampleFlags false) staleWorld).2 = Exit 0 →
          n = length ["d1"; "d2"; "d3"]).
Proof.
  apply (requests_prefix sampleFormatFloat sampleIsPrint sampleJoin
           sampleCloud quiet (sampleFlags false) staleWorld staleWorld
           "https://graph.api.smartthings.com/api/smartapps/x").
  - discriminate.
  - reflexivity.
  - reflexivity.
  - reflexivity.
Defined.

(** A normal run over the device [door]. *)
Lemma exit_zero_output_exists_witness :
  (main sampleFormatFloat sampleIsPrint sampleJoin doorCloud quiet
     (sampleFlags false) staleWorld).2 = Exit 0
  ∧ is_Some (files (main sampleFormatFloat sampleIsPrint sampleJoin doorCloud
                      quiet (sampleFlags false) staleWorld).1 !! target)
  ∧ files (main sampleFormatFloat sampleIsPrint sampleJoin doorCloud quiet
             (sampleFlags false) staleWorld).1
    !! tempname quiet target = None.
Proof.
  split; [reflexivity|].
  apply (exit_zero_output_exists sampleFormatFloat sampleIsPrint sampleJoin
           doorCloud quiet (sampleFlags false) staleWorld); reflexivity.
Defined.

(** A run without client identifier. *)
Lemma missing_client_witness :
  main sampleFormatFloat sampleIsPrint sampleJoin sampleCloud quiet
    noClientFlags staleWorld
  = ({| files := files staleWorld; stdout := "";
        stderr := "Must specify Client ID (--client)" +:+ newline;
        requests := [] |}, Exit 1).
Proof.
  apply (missing_client sampleFormatFloat sampleIsPrint sampleJoin sampleCloud
           quiet noClientFlags staleWorld).
  reflexivity.
Defined.

(** A run whose token is refused. *)
Lemma setup_fails_witness :
  (main sampleFormatFloat sampleIsPrint sampleJoin lockedCloud quiet
     (sampleFlags false) staleWorld).2 = Exit 1
  ∧ requests (main sampleFormatFloat sampleIsPrint sampleJoin lockedCloud
                quiet (sampleFlags false) staleWorld).1 = []
  ∧ stdout (main sampleFormatFloat sampleIsPrint sampleJoin lockedCloud quiet
              (sampleFlags false) staleWorld).1 = ""
  ∧ files (main sampleFormatFloat sampleIsPrint sampleJoin lockedCloud quiet
             (sampleFlags false) staleWorld).1 = files staleWorld.
Proof.
  apply (setup_fails sampleFormatFloat sampleIsPrint sampleJoin lockedCloud
           quiet (sampleFlags false) staleWorld staleWorld
           (Some "invalid client")).
  - discriminate.
  - reflexivity.
  - left. discriminate.
Defined.
